(** * Job orchestration and queue control plane: shallow embedding

    The Python sources are embedded function by function.  Python dicts
    whose key order matters for the rendered result are association lists
    in insertion order; dicts used as maps (settings, environment, Redis
    key space, dispatch table) are [gmap]s.  Exceptions are values of
    [outcome]; mutable collaborators (database table, broker, Redis,
    settings store) are threaded explicitly. *)

From Stdlib Require Import ZArith String List Lia.
From stdpp Require Import base gmap strings list pretty.

Set Warnings "-register-all,-clear-no-such-hyp".
Local Open Scope Z_scope.

(** ** Python values and exceptions *)

Inductive pyval :=
| PNone
| PBool (b : bool)
| PInt (z : Z)
| PStr (s : string)
| PList (l : list pyval)
| PDict (d : list (string * pyval)).

Abbreviation pydict := (list (string * pyval)).

Inductive exn :=
| ValueError (msg : string)
| TypeError (msg : string)
| OverflowError (msg : string)
| HTTPException (status_code : Z) (detail : string)
| BrokerError (msg : string).

(** [str(e)] of an exception. *)
Definition exn_str (e : exn) : string :=
  match e with
  | ValueError m | TypeError m | OverflowError m | BrokerError m => m
  | HTTPException c d => pretty c +:+ ": " +:+ d
  end.

Inductive outcome (A : Type) :=
| Returns (a : A)
| Raises (e : exn).
Arguments Returns {A} a.
Arguments Raises {A} e.

Definition is_returns {A} (o : outcome A) : bool :=
  match o with Returns _ => true | Raises _ => false end.

(** [d.get(k)] and [d[k] = v] on an insertion-ordered dict. *)
Fixpoint dict_get (d : pydict) (k : string) : option pyval :=
  match d with
  | [] => None
  | (k', v) :: d' => if String.eqb k' k then Some v else dict_get d' k
  end.

Fixpoint dict_set (d : pydict) (k : string) (v : pyval) : pydict :=
  match d with
  | [] => [(k, v)]
  | (k', v') :: d' =>
      if String.eqb k' k then (k', v) :: d' else (k', v') :: dict_set d' k v
  end.

Definition opt_int (o : option Z) : pyval :=
  match o with Some z => PInt z | None => PNone end.

Definition opt_str (o : option string) : pyval :=
  match o with Some s => PStr s | None => PNone end.

(** ** tasks/execution/base_executor.py *)

Module Dispatcher.

(** The keyword arguments every executor receives. *)
Record job_args := {
  schedule_id : option Z;
  credential_id : option Z;
  job_parameters : option pydict;
  target_devices : option (list pyval);
  task_context : pyval;
  template : option pydict;
  job_run_id : option Z;
}.

Definition executor := job_args → outcome pydict.

(** [execute_example]: logs, sleeps two seconds, returns its echo dict.
    [x or {}] maps both [None] and the empty container to the empty one. *)
Definition execute_example : executor := λ a,
  Returns
    [ ("success", PBool true);
      ("message", PStr "Example job completed successfully");
      ("schedule_id", opt_int (schedule_id a));
      ("job_run_id", opt_int (job_run_id a));
      ("job_parameters", PDict (default [] (job_parameters a)));
      ("target_devices", PList (default [] (target_devices a))) ].

Definition job_executors : gmap string executor :=
  {[ "example" := execute_example ]}.

Definition execute_job_type (job_type : string) (a : job_args)
  : outcome pydict :=
  match job_executors !! job_type with
  | None =>
      Returns [ ("success", PBool false);
                ("error", PStr ("Unknown job type: " +:+ job_type)) ]
  | Some executor => executor a
  end.

End Dispatcher.

(** ** repositories/base.py and job_template_manager.py *)

Module Templates.

(** A row of the job-template table. *)
Record JobTemplate := {
  id : Z;
  name : string;
  job_type : string;
  description : option string;
  is_global : bool;
  user_id : option Z;
  created_by : string;
  created_at : Z;
  updated_at : Z;
}.

(** The table, with the sequence that assigns primary keys and the
    database clock used for the timestamp defaults. *)
Record db := {
  rows : list JobTemplate;
  next_id : Z;
  clock : Z;
}.

(** The keyword dict handed to [repo.update]; a key that is absent is
    [None], a key bound to Python [None] is [Some None]. *)
Record update_kwargs := {
  kw_name : option string;
  kw_description : option string;
  kw_is_global : option bool;
  kw_user_id : option (option Z);
}.

Definition kwargs_empty (u : update_kwargs) : bool :=
  match kw_name u, kw_description u, kw_is_global u, kw_user_id u with
  | None, None, None, None => true
  | _, _, _, _ => false
  end.

(** [BaseRepository.get_by_id]: first row with that primary key. *)
Definition get_by_id (d : db) (i : Z) : option JobTemplate :=
  List.find (λ t, Z.eqb (id t) i) (rows d).

(** [BaseRepository.create]: add, commit, refresh. *)
Definition create (d : db) (n jt : string) (descr : option string)
    (g : bool) (uid : option Z) (by_ : string) : JobTemplate * db :=
  let obj := {| id := next_id d; name := n; job_type := jt;
                description := descr; is_global := g; user_id := uid;
                created_by := by_; created_at := clock d;
                updated_at := clock d |} in
  (obj, {| rows := rows d ++ [obj]; next_id := next_id d + 1;
           clock := clock d |}).

(** The [setattr] loop of [BaseRepository.update] on one row.  The
    timestamp columns are copied as read: what the database does to them
    on commit is decided by the ORM model, which is not among the
    sources, and no statement below speaks about them after an update. *)
Definition apply_kwargs (u : update_kwargs) (t : JobTemplate) : JobTemplate :=
  {| id := id t;
     name := default (name t) (kw_name u);
     job_type := job_type t;
     description :=
       match kw_description u with Some s => Some s | None => description t end;
     is_global := default (is_global t) (kw_is_global u);
     user_id := default (user_id t) (kw_user_id u);
     created_by := created_by t;
     created_at := created_at t;
     updated_at := updated_at t |}.

Fixpoint update_first (i : Z) (u : update_kwargs) (l : list JobTemplate)
  : list JobTemplate :=
  match l with
  | [] => []
  | t :: l' =>
      if Z.eqb (id t) i then apply_kwargs u t :: l'
      else t :: update_first i u l'
  end.

(** [BaseRepository.update]: the row is looked up, changed and
    committed; [None] when the key is unknown. *)
Definition update (d : db) (i : Z) (u : update_kwargs)
  : option JobTemplate * db :=
  match get_by_id d i with
  | Some t =>
      (Some (apply_kwargs u t),
       {| rows := update_first i u (rows d); next_id := next_id d;
          clock := clock d |})
  | None => (None, d)
  end.

(** Modelled from the spec: [JobTemplateRepository.check_name_exists] is
    not among the sources.  Name uniqueness is scoped: global templates
    form one namespace ([scope = None]), each user's private templates
    another ([scope = Some u]); [exclude_id] leaves one row out. *)
Definition in_scope (scope : option Z) (t : JobTemplate) : bool :=
  match scope with
  | None => is_global t
  | Some u =>
      negb (is_global t)
      && match user_id t with Some v => Z.eqb v u | None => false end
  end.

Definition check_name_exists (d : db) (n : string) (scope : option Z)
    (exclude_id : option Z) : bool :=
  existsb
    (λ t, String.eqb (name t) n && in_scope scope t
          && match exclude_id with
             | Some x => negb (Z.eqb (id t) x)
             | None => true
             end)
    (rows d).

Definition _model_to_dict (t : JobTemplate) : pydict :=
  [ ("id", PInt (id t));
    ("name", PStr (name t));
    ("job_type", PStr (job_type t));
    ("description", opt_str (description t));
    ("is_global", PBool (is_global t));
    ("user_id", opt_int (user_id t));
    ("created_by", PStr (created_by t));
    ("created_at", PInt (created_at t));
    ("updated_at", PInt (updated_at t)) ].

Definition duplicate_name (n : string) : exn :=
  ValueError ("A job template with name '" +:+ n +:+ "' already exists").

Definition create_job_template (d : db) (n jt : string) (uid : Z)
    (by_ : string) (descr : option string) (g : bool)
  : outcome pydict * db :=
  if check_name_exists d n (if negb g then Some uid else None) None
  then (Raises (duplicate_name n), d)
  else
    let '(template, d') :=
      create d n jt descr g (if negb g then Some uid else None) by_ in
    (Returns (_model_to_dict template), d').

Definition get_job_template (d : db) (template_id : Z) : option pydict :=
  match get_by_id d template_id with
  | Some template => Some (_model_to_dict template)
  | None => None
  end.

(** The [update_data] dict built from the supplied fields. *)
Definition update_data (n descr : option string) (g : option bool)
    (uid : option Z) : update_kwargs :=
  {| kw_name := n;
     kw_description := descr;
     kw_is_global := g;
     kw_user_id :=
       match g with
       | Some true => Some None
       | Some false =>
           match uid with Some u => Some (Some u) | None => None end
       | None => None
       end |}.

(** The part of [update_job_template] after the duplicate-name check. *)
Definition apply_update (d : db) (template_id : Z)
    (n descr : option string) (g : option bool) (uid : option Z)
  : outcome (option pydict) * db :=
  let data := update_data n descr g uid in
  if kwargs_empty data then (Returns (get_job_template d template_id), d)
  else
    match update d template_id data with
    | (Some template, d') => (Returns (Some (_model_to_dict template)), d')
    | (None, d') => (Returns None, d')
    end.

Definition update_job_template (d : db) (template_id : Z)
    (n descr : option string) (g : option bool) (uid : option Z)
  : outcome (option pydict) * db :=
  match n with
  | Some n' =>
      if check_name_exists d n' uid (Some template_id)
      then (Raises (duplicate_name n'), d)
      else apply_update d template_id n descr g uid
  | None => apply_update d template_id n descr g uid
  end.

End Templates.

(** ** External collaborators of the Celery routers

    Redis, the worker fleet and the clock are outside the sources.  Their
    answers are given by a [world]; the Redis key space is the mutable
    state, and every external call is logged so that a run can be
    inspected afterwards. *)

Module Env.

Inductive redis_cmd :=
| Ping
| Exists (key : string)
| ScanIter (prefix : string)   (* glob pattern [prefix*] *)
| Del (key : string).

Inductive event :=
| EvInspect (method : string) (ok : bool)
| EvFromUrl (ok : bool)
| EvRedis (c : redis_cmd) (ok : bool).

Record world := {
  redis_url_error : option exn;           (* [redis.from_url] raising *)
  redis_fault : redis_cmd → option exn;   (* a command raising *)
  inspect_stats : outcome (option pydict);
  inspect_active : outcome (option (list (string * list pyval)));
  utcnow : Z;                             (* datetime.now(timezone.utc), in microseconds *)
  celery_settings : gmap string pyval;    (* settings_manager.get_celery_settings() *)
}.

Record st := {
  keys : gmap string string;
  log : list event;
}.

Definition record (ev : event) (s : st) : st :=
  {| keys := keys s; log := log s ++ [ev] |}.

(** State and exception monad of a request handler. *)
Definition io (A : Type) : Type := st → outcome A * st.

#[export] Instance io_ret : MRet io := λ A a s, (Returns a, s).

#[export] Instance io_bind : MBind io := λ A B k m s,
  match m s with
  | (Returns a, s') => k a s'
  | (Raises e, s') => (Raises e, s')
  end.

Definition raise {A} (e : exn) : io A := λ s, (Raises e, s).

(** [try: m except Exception as e: h e] *)
Definition try_except {A} (m : io A) (h : exn → io A) : io A := λ s,
  match m s with
  | (Returns a, s') => (Returns a, s')
  | (Raises e, s') => h e s'
  end.

Definition from_url (w : world) : io unit := λ s,
  match redis_url_error w with
  | Some e => (Raises e, record (EvFromUrl false) s)
  | None => (Returns tt, record (EvFromUrl true) s)
  end.

Definition command {A} (w : world) (c : redis_cmd)
    (sem : gmap string string → A * gmap string string) : io A := λ s,
  match redis_fault w c with
  | Some e => (Raises e, record (EvRedis c false) s)
  | None =>
      let '(a, k') := sem (keys s) in
      (Returns a, {| keys := k'; log := log s ++ [EvRedis c true] |})
  end.

Definition r_ping (w : world) : io bool :=
  command w Ping (λ k, (true, k)).

Definition r_exists (w : world) (key : string) : io Z :=
  command w (Exists key)
    (λ k, (if decide (is_Some (k !! key)) then 1 else 0, k)).

Definition r_scan_iter (w : world) (prefix : string) : io (list string) :=
  command w (ScanIter prefix)
    (λ k, (filter (λ x, String.prefix prefix x = true) (map fst (map_to_list k)), k)).

(** [DEL], the command a cleanup would issue; no handler below calls it. *)
Definition r_delete (w : world) (key : string) : io Z :=
  command w (Del key)
    (λ k, (if decide (is_Some (k !! key)) then 1 else 0, delete key k)).

Definition inspect_call {A} (method : string) (o : outcome A) : io A := λ s,
  (o, record (EvInspect method (is_returns o)) s).

(** Python truthiness of an [int] and [a or b] on ints. *)
Definition py_bool (z : Z) : bool := negb (Z.eqb z 0).
Definition py_or (a b : Z) : Z := if py_bool a then a else b.

End Env.

(** ** routers/jobs/celery_status.py

    The [handle_celery_errors] decorator and the permission dependency
    wrap the handlers from outside and are not part of their bodies. *)

Module CeleryStatus.
Import Env.

(** *** purge_all_queues *)

(** The [kombu.Queue] built for one configured queue. *)
Record Queue := {
  q_name : string;
  q_exchange : pyval;
  q_routing_key : pyval;
}.

Definition make_queue (queue_name : string) (queue_config : pydict) : Queue :=
  {| q_name := queue_name;
     q_exchange := default (PStr queue_name) (dict_get queue_config "exchange");
     q_routing_key :=
       default (PStr queue_name) (dict_get queue_config "routing_key") |}.

(** [x or 0] on the value returned by [purge()]. *)
Definition or_zero (c : option Z) : Z :=
  match c with
  | Some n => if Z.eqb n 0 then 0 else n
  | None => 0
  end.

Section Purge.
(** The broker behind [celery_app]: acquiring a connection may fail,
    and [queue_obj(conn.channel()).purge()] either raises or drains
    the queue and reports what it removed. *)
Variable broker : Type.
Variable acquire : broker → option exn.
Variable purge : Queue → broker → outcome (option Z) * broker.

Definition purge_one (queue_name : string) (queue_config : pydict)
    (b : broker) : pydict * Z * broker :=
  match purge (make_queue queue_name queue_config) b with
  | (Returns purged_count, b') =>
      ([ ("queue", PStr queue_name);
         ("purged_tasks", PInt (or_zero purged_count)) ],
       or_zero purged_count, b')
  | (Raises e, b') =>
      ([ ("queue", PStr queue_name);
         ("purged_tasks", PInt 0);
         ("error", PStr (exn_str e)) ],
       0, b')
  end.

(** The [for queue_name in task_queues.keys()] loop with its two
    accumulators. *)
Fixpoint purge_loop (task_queues : list (string * pydict)) (b : broker)
    (purged_queues : list pydict) (total_purged : Z)
  : list pydict * Z * broker :=
  match task_queues with
  | [] => (purged_queues, total_purged, b)
  | (queue_name, queue_config) :: rest =>
      let '(entry, n, b') := purge_one queue_name queue_config b in
      purge_loop rest b' (purged_queues ++ [entry]) (total_purged + n)
  end.

Definition purge_all_response (total_purged : Z)
    (purged_queues : list pydict) : pydict :=
  [ ("success", PBool true);
    ("total_purged", PInt total_purged);
    ("queues", PList (map PDict purged_queues));
    ("message",
     PStr ("Purged " +:+ pretty total_purged +:+ " pending task(s) from "
           +:+ pretty (Z.of_nat (length purged_queues)) +:+ " queue(s)")) ].

Definition purge_all_queues (conf_task_queues : option (list (string * pydict)))
    (b : broker) : outcome pydict * broker :=
  let task_queues := default [] conf_task_queues in
  match acquire b with
  | Some e =>
      (Raises (HTTPException 500
                 ("Failed to purge all queues: " +:+ exn_str e)), b)
  | None =>
      let '(purged_queues, total_purged, b') :=
        purge_loop task_queues b [] 0 in
      (Returns (purge_all_response total_purged purged_queues), b')
  end.
End Purge.

(** *** beat_status, celery_status *)

Definition beat_status (w : world) : io pydict :=
  _ ← from_url w;
  lock_exists ← r_exists w "cockpit-ng:beat::lock";
  schedule_exists ← r_exists w "cockpit-ng:beat::schedule";
  let beat_running := py_bool (py_or lock_exists schedule_exists) in
  mret [ ("success", PBool true);
         ("beat_running", PBool beat_running);
         ("message",
          PStr (if beat_running then "Beat is running"
                else "Beat not detected")) ].

Definition count_tasks (active : option (list (string * list pyval))) : Z :=
  match active with
  | Some workers =>
      fold_left (λ task_count worker, task_count + Z.of_nat (length (snd worker)))
        workers 0
  | None => 0
  end.

Definition celery_status (w : world) : io pydict :=
  stats ← inspect_call "stats" (inspect_stats w);
  active ← inspect_call "active" (inspect_active w);
  let worker_count :=
    match stats with Some s => Z.of_nat (length s) | None => 0 end in
  let task_count := count_tasks active in
  redis_connected ←
    try_except (_ ← from_url w; _ ← r_ping w; mret true)
               (λ _, mret false);
  beat_running ←
    try_except (_ ← from_url w;
                n ← r_exists w "cockpit-ng:beat::lock";
                mret (py_bool n))
               (λ _, mret false);
  mret [ ("success", PBool true);
         ("status",
          PDict [ ("redis_connected", PBool redis_connected);
                  ("worker_count", PInt worker_count);
                  ("active_tasks", PInt task_count);
                  ("beat_running", PBool beat_running) ]) ].

(** *** get_celery_config *)

(** The attributes of [celery_app.conf] the snapshot reads. *)
Record celery_conf := {
  worker_prefetch_multiplier : pyval;
  worker_max_tasks_per_child : pyval;
  task_time_limit : pyval;
  task_serializer : pyval;
  task_track_started : pyval;
  result_expires : pyval;
  result_serializer : pyval;
  beat_scheduler : pyval;
  beat_schedule : option pydict;
  timezone : pyval;
  enable_utc : pyval;
}.

(** [os.getenv(name, fallback)] *)
Definition getenv (environ : gmap string string) (var fallback : string)
  : string :=
  default fallback (environ !! var).

(** [bool(s)] on a [str]. *)
Definition str_bool (s : string) : bool :=
  match s with EmptyString => false | _ => true end.

Definition get_celery_config (environ : gmap string string)
    (celery_max_workers : pyval) (conf : celery_conf) : pydict :=
  let redis_host := getenv environ "COCKPIT_REDIS_HOST" "localhost" in
  let redis_port := getenv environ "COCKPIT_REDIS_PORT" "6379" in
  let redis_password := getenv environ "COCKPIT_REDIS_PASSWORD" "" in
  let has_password := str_bool redis_password in
  [ ("success", PBool true);
    ("config",
     PDict
       [ ("redis",
          PDict [ ("host", PStr redis_host);
                  ("port", PStr redis_port);
                  ("has_password", PBool has_password);
                  ("database", PStr "0") ]);
         ("worker",
          PDict [ ("max_concurrency", celery_max_workers);
                  ("prefetch_multiplier", worker_prefetch_multiplier conf);
                  ("max_tasks_per_child", worker_max_tasks_per_child conf) ]);
         ("task",
          PDict [ ("time_limit", task_time_limit conf);
                  ("serializer", task_serializer conf);
                  ("track_started", task_track_started conf) ]);
         ("result",
          PDict [ ("expires", result_expires conf);
                  ("serializer", result_serializer conf) ]);
         ("beat",
          PDict [ ("scheduler", beat_scheduler conf);
                  ("schedule_count",
                   PInt (match beat_schedule conf with
                         | Some sch => Z.of_nat (length sch)
                         | None => 0
                         end)) ]);
         ("timezone", timezone conf);
         ("enable_utc", enable_utc conf) ]) ].

End CeleryStatus.

(** ** routers/jobs/celery_cleanup.py *)

Module CeleryCleanup.
Import Env.

Definition lift {A} (o : outcome A) : io A := λ s, (o, s).

(** A [datetime] is a count of microseconds since 0001-01-01T00:00:00;
    [datetime.max] is the last microsecond of the year 9999, 3652059 days
    later.  A [timedelta] is a count of microseconds whose whole days have
    magnitude at most 999999999. *)
Definition datetime_span : Z := 3652059 * 86400000000.

Definition timedelta_max_days : Z := 999999999.

(** [timedelta(hours=h)] for an [int]: the normalised day count is
    [h // 24].  (For a day count beyond a C [int] CPython words the same
    [OverflowError] differently.) *)
Definition hours_delta (h : Z) : outcome Z :=
  if (- timedelta_max_days <=? h / 24) && (h / 24 <=? timedelta_max_days)
  then Returns (h * 3600000000)
  else Raises (OverflowError ("days=" +:+ pretty (h / 24)
                              +:+ "; must have magnitude <= 999999999")).

(** [timedelta(hours=v)]; [bool] is an [int] in Python, every other
    non-numeric value is rejected. *)
Definition timedelta_hours (v : pyval) : outcome Z :=
  match v with
  | PInt h => hours_delta h
  | PBool b => hours_delta (Z.b2z b)
  | _ => Raises (TypeError "unsupported type for timedelta hours component")
  end.

(** [t - delta] on a [datetime]. *)
Definition datetime_sub (t delta : Z) : outcome Z :=
  if (0 <=? t - delta) && (t - delta <? datetime_span)
  then Returns (t - delta)
  else Raises (OverflowError "date value out of range").

(** [f"{v}"] for the values [timedelta] accepts. *)
Definition hours_text (v : pyval) : string :=
  match v with
  | PInt h => pretty h
  | PBool true => "True"
  | PBool false => "False"
  | _ => ""
  end.

Section Stats.
(** [datetime.isoformat], left abstract. *)
Variable isoformat : Z → string.

Definition get_cleanup_stats (w : world) : io pydict :=
  let cleanup_age_hours :=
    default (PInt 24) (celery_settings w !! "cleanup_age_hours") in
  delta ← lift (timedelta_hours cleanup_age_hours);
  cutoff_time ← lift (datetime_sub (utcnow w) delta);
  _ ← from_url w;
  result_keys ← r_scan_iter w "celery-task-meta-";
  mret [ ("success", PBool true);
         ("stats",
          PDict [ ("cleanup_age_hours", cleanup_age_hours);
                  ("cutoff_time", PStr (isoformat cutoff_time));
                  ("total_result_keys",
                   PInt (Z.of_nat (length result_keys)));
                  ("message",
                   PStr ("Cleanup will remove task results older than "
                         +:+ hours_text cleanup_age_hours +:+ " hours")) ]) ].
End Stats.

End CeleryCleanup.

(** ** routers/jobs/celery_settings.py *)

Module CelerySettings.

(** Pydantic models; a field that was not set in the request is [None],
    a field set to [null] is [Some None]. *)
Record CeleryQueue := {
  name : string;
  description : option string;
  built_in : option bool;
}.

Record CelerySettingsRequest := {
  max_workers : option (option Z);
  cleanup_enabled : option (option bool);
  cleanup_interval_hours : option (option Z);
  cleanup_age_hours : option (option Z);
  result_expires_hours : option (option Z);
  queues : option (option (list CeleryQueue));
}.

Definition dump_queue (q : CeleryQueue) : pyval :=
  PDict ([ ("name", PStr (name q)) ]
         ++ match description q with
            | Some d => [ ("description", PStr d) ]
            | None => []
            end
         ++ match built_in q with
            | Some b => [ ("built_in", PBool b) ]
            | None => []
            end).

Definition set_field {A} (k : string) (f : A → pyval)
    (v : option (option A)) (m : gmap string pyval) : gmap string pyval :=
  match v with
  | Some (Some a) => <[k := f a]> m
  | Some None => <[k := PNone]> m
  | None => m
  end.

(** [request.model_dump(exclude_unset=True)] *)
Definition model_dump (r : CelerySettingsRequest) : gmap string pyval :=
  set_field "max_workers" PInt (max_workers r)
    (set_field "cleanup_enabled" PBool (cleanup_enabled r)
       (set_field "cleanup_interval_hours" PInt (cleanup_interval_hours r)
          (set_field "cleanup_age_hours" PInt (cleanup_age_hours r)
             (set_field "result_expires_hours" PInt (result_expires_hours r)
                (set_field "queues" (λ qs, PList (map dump_queue qs))
                   (queues r) ∅))))).

Definition built_in_queue_names : gset string :=
  {[ "default"; "backup"; "network"; "heavy" ]}.

(** The loop that stamps [built_in] on every queue of the update. *)
Definition stamp_built_in (q : CeleryQueue) : CeleryQueue :=
  if decide (name q ∈ built_in_queue_names)
  then {| name := name q; description := description q;
          built_in := Some true |}
  else match built_in q with
       | None => {| name := name q; description := description q;
                    built_in := Some false |}
       | Some _ => q
       end.

Definition with_queues (r : CelerySettingsRequest)
    (qs : list CeleryQueue) : CelerySettingsRequest :=
  {| max_workers := max_workers r;
     cleanup_enabled := cleanup_enabled r;
     cleanup_interval_hours := cleanup_interval_hours r;
     cleanup_age_hours := cleanup_age_hours r;
     result_expires_hours := result_expires_hours r;
     queues := Some (Some qs) |}.

(** Modelled from the spec: [settings_manager] is not among the sources.
    It holds the persisted Celery settings; a write either replaces them
    and reports [True], or fails, changes nothing and reports [False]. *)
Record settings_manager := {
  stored : gmap string pyval;
  writable : bool;
}.

Definition sm_get_celery_settings (sm : settings_manager)
  : gmap string pyval := stored sm.

Definition sm_update_celery_settings (sm : settings_manager)
    (merged : gmap string pyval) : bool * settings_manager :=
  if writable sm
  then (true, {| stored := merged; writable := writable sm |})
  else (false, sm).

Record settings_response := {
  success : bool;
  settings : gmap string pyval;
  message : string;
}.

Section Update.
(** Iteration order of a Python [set] of strings: some enumeration of
    its elements, not fixed by the language. *)
Variable set_iter : gset string → list string.

Definition missing_detail (missing_built_ins : gset string) : string :=
  "Cannot remove built-in queues: "
  +:+ String.concat ", " (set_iter missing_built_ins)
  +:+ ". Built-in queues (default, backup, network, heavy) are required.".

(** The tail of the handler: merge, persist, read back. *)
Definition persist (sm : settings_manager) (updates : gmap string pyval)
  : outcome settings_response * settings_manager :=
  let current := sm_get_celery_settings sm in
  let merged := updates ∪ current in
  let '(ok, sm') := sm_update_celery_settings sm merged in
  if negb ok
  then (Raises (HTTPException 500 "Failed to update Celery settings"), sm')
  else
    (Returns {| success := true;
                settings := sm_get_celery_settings sm';
                message := "Celery settings updated. Worker restart required for max_workers changes." |},
     sm').

Definition update_celery_settings (sm : settings_manager)
    (request : CelerySettingsRequest)
  : outcome settings_response * settings_manager :=
  match queues request with
  | None => persist sm (model_dump request)
  | Some None =>
      (Raises (TypeError "'NoneType' object is not iterable"), sm)
  | Some (Some qs) =>
      let updated_queue_names : gset string :=
        list_to_set (map name qs) in
      let missing_built_ins :=
        built_in_queue_names ∖ updated_queue_names in
      if decide (missing_built_ins = ∅)
      then persist sm
             (model_dump (with_queues request (map stamp_built_in qs)))
      else (Raises (HTTPException 400 (missing_detail missing_built_ins)),
            sm)
  end.
End Update.

End CelerySettings.

(** ** repositories/base.py and job_template_manager.py, continued *)

Module Repository.
Import Templates.

Fixpoint remove_first (i : Z) (l : list JobTemplate) : list JobTemplate :=
  match l with
  | [] => []
  | t :: l' => if Z.eqb (id t) i then l' else t :: remove_first i l'
  end.

(** [BaseRepository.delete]: the row found by key is deleted and the
    change committed; [False] when the key is unknown. *)
Definition delete (d : db) (i : Z) : bool * db :=
  match get_by_id d i with
  | Some obj =>
      (true, {| rows := remove_first i (rows d); next_id := next_id d;
                clock := clock d |})
  | None => (false, d)
  end.

(** [BaseRepository.get_all], [count], [exists]. *)
Definition get_all (d : db) : list JobTemplate := rows d.

Definition count (d : db) : Z := Z.of_nat (length (rows d)).

Definition exists_ (d : db) (i : Z) : bool :=
  Z.ltb 0 (Z.of_nat (length (List.filter (λ t, Z.eqb (id t) i) (rows d)))).

(** [delete_job_template] of the manager. *)
Definition delete_job_template (d : db) (template_id : Z) : bool * db :=
  match get_by_id d template_id with
  | Some template => (true, snd (delete d template_id))
  | None => (false, d)
  end.

End Repository.

(** ** routers/jobs/celery_status.py, continued *)

Module QueueAdmin.
Import CeleryStatus.

(** [d[k]] on a dict whose values are of any type. *)
Fixpoint assoc_get {A} (d : list (string * A)) (k : string) : option A :=
  match d with
  | [] => None
  | (k', v) :: d' => if String.eqb k' k then Some v else assoc_get d' k
  end.

Section PurgeOne.
Variable broker : Type.
Variable acquire : broker → option exn.
Variable purge : Queue → broker → outcome (option Z) * broker.

(** The two handlers of [purge_queue]: an [HTTPException] passes through,
    anything else becomes a 500. *)
Definition purge_queue_error (e : exn) : exn :=
  match e with
  | HTTPException _ _ => e
  | _ => HTTPException 500 ("Failed to purge queue: " +:+ exn_str e)
  end.

Definition purge_queue (conf_task_queues : option (list (string * pydict)))
    (queue_name : string) (b : broker) : outcome pydict * broker :=
  let task_queues := default [] conf_task_queues in
  match assoc_get task_queues queue_name with
  | None =>
      (Raises (HTTPException 404 ("Queue '" +:+ queue_name +:+ "' not found")), b)
  | Some queue_config =>
      match acquire b with
      | Some e => (Raises (purge_queue_error e), b)
      | None =>
          match purge (make_queue queue_name queue_config) b with
          | (Returns purged_count, b') =>
              (Returns
                 [ ("success", PBool true);
                   ("queue", PStr queue_name);
                   ("purged_tasks", PInt (or_zero purged_count));
                   ("message",
                    PStr ("Purged " +:+ pretty (or_zero purged_count)
                          +:+ " pending task(s) from queue '" +:+ queue_name
                          +:+ "'")) ],
               b')
          | (Raises e, b') => (Raises (purge_queue_error e), b')
          end
      end
  end.
End PurgeOne.

(** *** list_queues *)

(** [queue_info.get("name") == queue_name] and
    [route_config.get("queue") == queue_name]. *)
Definition field_is (d : pydict) (field value : string) : bool :=
  match dict_get d field with
  | Some (PStr s) => String.eqb s value
  | _ => false
  end.

(** The nested loop over [active_queues]: one occurrence of the worker per
    matching subscription. *)
Definition workers_consuming_of
    (active_queues : option (list (string * list pydict)))
    (queue_name : string) : list string :=
  match active_queues with
  | Some workers =>
      flat_map
        (λ w, flat_map
                (λ queue_info,
                   if field_is queue_info "name" queue_name then [fst w]
                   else [])
                (snd w))
        workers
  | None => []
  end.

Definition mem_string (x : string) (l : list string) : bool :=
  existsb (String.eqb x) l.

(** The loop over [active_tasks]. *)
Definition active_count_of (active_tasks : option (list (string * list pyval)))
    (workers_consuming : list string) : Z :=
  match active_tasks with
  | Some workers =>
      fold_left
        (λ active_count w,
           if mem_string (fst w) workers_consuming
           then active_count + Z.of_nat (length (snd w))
           else active_count)
        workers 0
  | None => 0
  end.

Definition routed_tasks_of (task_routes : list (string * pydict))
    (queue_name : string) : list string :=
  flat_map
    (λ r, if field_is (snd r) "queue" queue_name then [fst r] else [])
    task_routes.

Definition queue_entry
    (active_queues : option (list (string * list pydict)))
    (active_tasks : option (list (string * list pyval)))
    (task_routes : list (string * pydict))
    (queue_name : string) (queue_config : pydict) (pending_count : Z)
  : pydict :=
  let workers_consuming := workers_consuming_of active_queues queue_name in
  [ ("name", PStr queue_name);
    ("pending_tasks", PInt pending_count);
    ("active_tasks", PInt (active_count_of active_tasks workers_consuming));
    ("workers_consuming", PList (map PStr workers_consuming));
    ("worker_count", PInt (Z.of_nat (length workers_consuming)));
    ("routed_tasks", PList (map PStr (routed_tasks_of task_routes queue_name)));
    ("exchange", default PNone (dict_get queue_config "exchange"));
    ("routing_key", default PNone (dict_get queue_config "routing_key")) ].

Section ListQueues.
(** Redis as seen by this handler: building the client, [LLEN] per queue,
    closing the client. *)
Variable from_url_error : option exn.
Variable llen : string → outcome Z.
Variable close_error : option exn.

(** The [for queue_name in task_queues.keys()] loop inside the [try]. *)
Fixpoint queues_loop
    (active_queues : option (list (string * list pydict)))
    (active_tasks : option (list (string * list pyval)))
    (task_routes : list (string * pydict))
    (task_queues : list (string * pydict)) (queues : list pydict)
  : outcome (list pydict) :=
  match task_queues with
  | [] => Returns queues
  | (queue_name, queue_config) :: rest =>
      match llen queue_name with
      | Raises e => Raises e
      | Returns pending_count =>
          queues_loop active_queues active_tasks task_routes rest
            (queues ++ [queue_entry active_queues active_tasks task_routes
                          queue_name queue_config pending_count])
      end
  end.

Definition queues_failure (e : exn) : pydict :=
  [ ("success", PBool false);
    ("error", PStr (exn_str e));
    ("queues", PList []);
    ("total_queues", PInt 0) ].

Definition list_queues
    (inspect_active_queues : outcome (option (list (string * list pydict))))
    (inspect_active : outcome (option (list (string * list pyval))))
    (conf_task_queues : option (list (string * pydict)))
    (conf_task_routes : option (list (string * pydict)))
  : outcome pydict :=
  match inspect_active_queues with
  | Raises e => Raises e
  | Returns active_queues =>
      match inspect_active with
      | Raises e => Raises e
      | Returns active_tasks =>
          let task_queues := default [] conf_task_queues in
          let task_routes := default [] conf_task_routes in
          match from_url_error with
          | Some e => Returns (queues_failure e)
          | None =>
              match queues_loop active_queues active_tasks task_routes
                      task_queues [] with
              | Raises e => Returns (queues_failure e)
              | Returns queues =>
                  match close_error with
                  | Some e => Returns (queues_failure e)
                  | None =>
                      Returns
                        [ ("success", PBool true);
                          ("queues", PList (map PDict queues));
                          ("total_queues", PInt (Z.of_nat (length queues))) ]
                  end
              end
          end
      end
  end.
End ListQueues.

End QueueAdmin.

(** ** routers/jobs/celery_api.py *)

Module CeleryApi.

(** What the handler reads from [AsyncResult]. *)
Record AsyncResult := {
  state : string;
  info : pyval;
  result : pyval;
}.

Record TaskStatusResponse := {
  r_task_id : string;
  r_status : string;
  r_result : pyval;
  r_error : pyval;
  r_progress : pyval;
}.

Section TaskStatus.
(** [str(result.info)], left abstract. *)
Variable py_str : pyval → string.

Definition get_task_status (task_id : string) (res : AsyncResult)
  : TaskStatusResponse :=
  let response :=
    {| r_task_id := task_id; r_status := state res; r_result := PNone;
       r_error := PNone; r_progress := PNone |} in
  if String.eqb (state res) "PENDING" then
    {| r_task_id := task_id; r_status := state res; r_result := PNone;
       r_error := PNone;
       r_progress :=
         PDict [ ("status", PStr "Task is queued and waiting to start") ] |}
  else if String.eqb (state res) "PROGRESS" then
    {| r_task_id := task_id; r_status := state res; r_result := PNone;
       r_error := PNone; r_progress := info res |}
  else if String.eqb (state res) "SUCCESS" then
    {| r_task_id := task_id; r_status := state res; r_result := result res;
       r_error := PNone; r_progress := PNone |}
  else if String.eqb (state res) "FAILURE" then
    {| r_task_id := task_id; r_status := state res; r_result := PNone;
       r_error := PStr (py_str (info res)); r_progress := PNone |}
  else response.
End TaskStatus.

End CeleryApi.

(** ** routers/settings/cache.py and routers/settings/common.py *)

Module SettingsRouters.

(** Python truthiness. *)
Definition truthy (v : pyval) : bool :=
  match v with
  | PNone => false
  | PBool b => b
  | PInt z => negb (Z.eqb z 0)
  | PStr s => negb (String.eqb s "")
  | PList l => match l with [] => false | _ => true end
  | PDict d => match d with [] => false | _ => true end
  end.

Section ClearCache.
(** [cache_service], which is not among the sources: its two clearing
    operations, each returning the number of entries removed. *)
Variable cache : Type.
Variable clear_all : cache → outcome Z * cache.
Variable clear_namespace : pyval → cache → outcome Z * cache.
(** [f"{namespace}"], left abstract. *)
Variable py_str : pyval → string.

Definition cache_failure (e : exn) : pydict :=
  [ ("success", PBool false); ("message", PStr (exn_str e)) ].

(** [clear_cache]; the payload is a JSON object or absent. *)
Definition clear_cache (payload : option pydict) (c : cache)
  : outcome pydict * cache :=
  let namespace :=
    match payload with
    | Some p => if truthy (PDict p) then default PNone (dict_get p "namespace")
                else PNone
    | None => PNone
    end in
  if negb (truthy namespace) then
    match clear_all c with
    | (Returns cleared_count, c') =>
        (Returns
           [ ("success", PBool true);
             ("message",
              PStr ("Cleared all cache entries (" +:+ pretty cleared_count
                    +:+ " items)"));
             ("cleared_count", PInt cleared_count) ],
         c')
    | (Raises e, c') => (Returns (cache_failure e), c')
    end
  else
    match clear_namespace namespace c with
    | (Returns cleared_count, c') =>
        (Returns
           [ ("success", PBool true);
             ("message",
              PStr ("Cleared cache namespace '" +:+ py_str namespace +:+ "' ("
                    +:+ pretty cleared_count +:+ " items)"));
             ("cleared_count", PInt cleared_count) ],
         c')
    | (Raises e, c') => (Returns (cache_failure e), c')
    end.
End ClearCache.

Section CacheSettings.
(** [settings_manager], which is not among the sources: writing and
    reading the cache settings. *)
Variable manager : Type.
Variable update_cache_settings : pyval → manager → outcome bool * manager.
Variable get_cache_settings : manager → outcome pyval.

Definition cache_settings_updated (updated : pyval) : pydict :=
  [ ("success", PBool true);
    ("message", PStr "Cache settings updated successfully");
    ("data", updated);
    ("cache", updated) ].

Definition wrap_500 (e : exn) : exn :=
  HTTPException 500 ("Failed to update Cache settings: " +:+ exn_str e).

(** [update_cache_settings], the PUT handler: every exception, the
    handler's own 500 included, is caught and wrapped. *)
Definition put_cache_settings (cache_request : pyval) (m : manager)
  : outcome pydict * manager :=
  match update_cache_settings cache_request m with
  | (Raises e, m') => (Raises (wrap_500 e), m')
  | (Returns true, m') =>
      match get_cache_settings m' with
      | Returns updated => (Returns (cache_settings_updated updated), m')
      | Raises e => (Raises (wrap_500 e), m')
      end
  | (Returns false, m') =>
      (Raises (wrap_500 (HTTPException 500 "Failed to update Cache settings")), m')
  end.

(** [create_cache_settings], the POST handler. *)
Definition post_cache_settings (cache_request : pyval) (m : manager)
  : outcome pydict * manager :=
  match update_cache_settings cache_request m with
  | (Raises e, m') =>
      (Returns [ ("success", PBool false);
                 ("message",
                  PStr ("Failed to update Cache settings: " +:+ exn_str e)) ],
       m')
  | (Returns true, m') =>
      match get_cache_settings m' with
      | Returns updated => (Returns (cache_settings_updated updated), m')
      | Raises e =>
          (Returns [ ("success", PBool false);
                     ("message",
                      PStr ("Failed to update Cache settings: " +:+ exn_str e)) ],
           m')
      end
  | (Returns false, m') =>
      (Returns [ ("success", PBool false);
                 ("message", PStr "Failed to update Cache settings") ],
       m')
  end.
End CacheSettings.

End SettingsRouters.

(** * Vocabulary of the statements and sample data *)

Section DispatcherTerms.
Import Dispatcher.

Definition sample_args : job_args :=
  {| schedule_id := Some 7; credential_id := None;
     job_parameters := None; target_devices := Some [PStr "dev-1"];
     task_context := PNone; template := None; job_run_id := Some 3 |}.

End DispatcherTerms.

Section TemplateTerms.
Import Templates.

(** The scope a create targets. *)
Definition target_scope (g : bool) (uid : Z) : option Z :=
  if negb g then Some uid else None.

End TemplateTerms.

Section TemplateUpdateTerms.
Import Templates.

Definition db_empty : db := {| rows := []; next_id := 1; clock := 1000 |}.

Definition db_nightly : db :=
  snd (create_job_template db_empty "nightly" "example" 5 "bob" None false).

(** A table with a global template "X" and a private template "Y" of
    user 5. *)
Definition db_two : db :=
  {| rows :=
       [ {| id := 1; name := "X"; job_type := "example"; description := None;
            is_global := true; user_id := None; created_by := "admin";
            created_at := 10; updated_at := 10 |};
         {| id := 2; name := "Y"; job_type := "example"; description := None;
            is_global := false; user_id := Some 5; created_by := "bob";
            created_at := 20; updated_at := 20 |} ];
     next_id := 3; clock := 30 |}.

End TemplateUpdateTerms.

(** The count an entry of the per-queue result list contributes when it
    carries no error. *)
Definition entry_count (e : pydict) : Z :=
  match dict_get e "error", dict_get e "purged_tasks" with
  | None, Some (PInt c) => c
  | _, _ => 0
  end.

Definition sum_counts (es : list pydict) : Z :=
  fold_right (λ e acc, entry_count e + acc) 0 es.

Section PurgeTerms.
Import CeleryStatus.
Variable broker : Type.
Variable purge : Queue → broker → outcome (option Z) * broker.

Local Abbreviation purge_loop := (purge_loop broker purge).

(** The entry [purge_all_queues] records for one queue, given what the
    broker answered. *)
Definition entry_of (queue_name : string) (o : outcome (option Z)) : pydict :=
  match o with
  | Returns c =>
      [ ("queue", PStr queue_name); ("purged_tasks", PInt (or_zero c)) ]
  | Raises e =>
      [ ("queue", PStr queue_name); ("purged_tasks", PInt 0);
        ("error", PStr (exn_str e)) ]
  end.

Definition entries_of (qs : list (string * pydict)) (b : broker) :=
  (purge_loop qs b [] 0).1.1.
Definition total_of (qs : list (string * pydict)) (b : broker) :=
  (purge_loop qs b [] 0).1.2.
Definition broker_after (qs : list (string * pydict)) (b : broker) :=
  (purge_loop qs b [] 0).2.

(** The broker once the broker's own purge has been applied to each of
    the queues, one after the other in configuration order; stated on the
    broker operation alone, not on the handler's loop. *)
Definition purged_in_order (qs : list (string * pydict)) (b : broker) : broker :=
  fold_left (λ b' qc, (purge (make_queue qc.1 qc.2) b').2) qs b.

End PurgeTerms.

Record list_broker := {
  lb_connected : bool;
  lb_depth : gmap string Z;      (* pending messages per queue *)
  lb_broken : gset string;       (* queues whose channel fails *)
}.

Definition lb_acquire (b : list_broker) : option exn :=
  if lb_connected b then None else Some (BrokerError "Connection refused").

Definition lb_purge (q : CeleryStatus.Queue) (b : list_broker)
  : outcome (option Z) * list_broker :=
  if decide (CeleryStatus.q_name q ∈ lb_broken b)
  then (Raises (BrokerError "channel closed"), b)
  else (Returns (Some (default 0 (lb_depth b !! CeleryStatus.q_name q))),
        {| lb_connected := lb_connected b;
           lb_depth := <[CeleryStatus.q_name q := 0]> (lb_depth b);
           lb_broken := lb_broken b |}).

Definition three_queues : list (string * pydict) :=
  [ ("default", [ ("exchange", PStr "default"); ("routing_key", PStr "default") ]);
    ("backup", []);
    ("network", [ ("exchange", PStr "network") ]) ].

Definition broker_sample : list_broker :=
  {| lb_connected := true;
     lb_depth := {[ "default" := 3; "backup" := 4; "network" := 0 ]};
     lb_broken := {[ "backup" ]} |}.

(** The same broker, out of reach. *)
Definition broker_down : list_broker :=
  {| lb_connected := false;
     lb_depth := {[ "default" := 3; "backup" := 4; "network" := 0 ]};
     lb_broken := {[ "backup" ]} |}.

Section StatusTerms.
Import Env CeleryStatus.

Definition beat_lock_key : string := "cockpit-ng:beat::lock".
Definition beat_schedule_key : string := "cockpit-ng:beat::schedule".

(** The envelope [celery_status] returns. *)
Definition status_envelope (redis_connected : bool) (worker_count task_count : Z)
    (beat_running : bool) : pydict :=
  [ ("success", PBool true);
    ("status",
     PDict [ ("redis_connected", PBool redis_connected);
             ("worker_count", PInt worker_count);
             ("active_tasks", PInt task_count);
             ("beat_running", PBool beat_running) ]) ].

Definition fresh (k : gmap string string) : st := {| keys := k; log := [] |}.

(** A healthy world with one idle worker. *)
Definition world_ok : world :=
  {| redis_url_error := None;
     redis_fault := λ _, None;
     inspect_stats := Returns (Some [ ("worker@1", PDict []) ]);
     inspect_active := Returns (Some [ ("worker@1", []) ]);
     utcnow := 1000000000000;
     celery_settings := ∅ |}.

(** A world whose Redis refuses every command. *)
Definition world_redis_down : world :=
  {| redis_url_error := None;
     redis_fault := λ _, Some (BrokerError "Connection refused");
     inspect_stats := Returns (Some [ ("worker@1", PDict []) ]);
     inspect_active := Returns (Some [ ("worker@1", [PStr "task-a"; PStr "task-b"]) ]);
     utcnow := 1000000000000;
     celery_settings := ∅ |}.

End StatusTerms.

(** [d[k1][k2]...] on nested dicts. *)
Fixpoint dict_at (v : pyval) (path : list string) : option pyval :=
  match path with
  | [] => Some v
  | k :: rest =>
      match v with
      | PDict d =>
          match dict_get d k with
          | Some v' => dict_at v' rest
          | None => None
          end
      | _ => None
      end
  end.

Section ConfigTerms.
Import CeleryStatus.

Definition password_var : string := "COCKPIT_REDIS_PASSWORD".

End ConfigTerms.

Section CleanupTerms.
Import Env CeleryCleanup.

Definition result_prefix : string := "celery-task-meta-".

(** The keys of the store that match [celery-task-meta-*]. *)
Definition result_keys (k : gmap string string) : list string :=
  filter (λ x, String.prefix result_prefix x = true) (map fst (map_to_list k)).

End CleanupTerms.

(** A store holding two task results and one unrelated key. *)
Definition store_sample : gmap string string :=
  {[ "celery-task-meta-1" := "done";
     "celery-task-meta-2" := "failed";
     "cockpit-ng:beat::lock" := "1" ]}.

(** The queue names found in a stored [queues] value. *)
Definition queue_name_of (q : pyval) : option string :=
  match q with
  | PDict d =>
      match dict_get d "name" with Some (PStr n) => Some n | _ => None end
  | _ => None
  end.

Definition queue_names_of (v : pyval) : list string :=
  match v with
  | PList l => omap queue_name_of l
  | _ => []
  end.

(** Settings whose queue list holds every built-in queue. *)
Definition keeps_built_ins (m : gmap string pyval) : Prop :=
  ∃ v, m !! "queues" = Some v
       ∧ CelerySettings.built_in_queue_names ⊆ list_to_set (queue_names_of v).

(** The scenario: stored queues default, backup, network, heavy, custom1. *)
Definition plain_queue (n : string) : CelerySettings.CeleryQueue :=
  {| CelerySettings.name := n; CelerySettings.description := None;
     CelerySettings.built_in := None |}.

Definition settings_sample : CelerySettings.settings_manager :=
  {| CelerySettings.stored :=
       {[ "max_workers" := PInt 4;
          "queues" :=
            PList (map (λ n, CelerySettings.dump_queue
                               (CelerySettings.stamp_built_in (plain_queue n)))
                     [ "default"; "backup"; "network"; "heavy"; "custom1" ]) ]};
     CelerySettings.writable := true |}.

Definition queues_request (names : list string)
  : CelerySettings.CelerySettingsRequest :=
  {| CelerySettings.max_workers := None;
     CelerySettings.cleanup_enabled := None;
     CelerySettings.cleanup_interval_hours := None;
     CelerySettings.cleanup_age_hours := None;
     CelerySettings.result_expires_hours := None;
     CelerySettings.queues := Some (Some (map plain_queue names)) |}.

(** *** Further vocabulary *)

Section RepositoryTerms.
Import Templates.

(** Primary keys are unique and were all handed out by the sequence. *)
Definition ids_wf (d : db) : Prop :=
  NoDup (map id (rows d)) ∧ Forall (λ t, id t < next_id d) (rows d).

(** A table with three templates, two of them global. *)
Definition db_three : db :=
  {| rows :=
       [ {| id := 1; name := "X"; job_type := "example"; description := Some "first";
            is_global := true; user_id := None; created_by := "admin";
            created_at := 10; updated_at := 10 |};
         {| id := 2; name := "Y"; job_type := "example"; description := None;
            is_global := false; user_id := Some 5; created_by := "bob";
            created_at := 20; updated_at := 20 |};
         {| id := 4; name := "Z"; job_type := "example"; description := None;
            is_global := true; user_id := None; created_by := "admin";
            created_at := 25; updated_at := 25 |} ];
     next_id := 5; clock := 30 |}.

End RepositoryTerms.

Section QueueListTerms.
Import QueueAdmin.

(** All tasks the workers report as active. *)
Definition all_tasks (active_tasks : option (list (string * list pyval))) : Z :=
  match active_tasks with
  | Some workers =>
      fold_right (λ w acc, Z.of_nat (length (snd w)) + acc) 0 workers
  | None => 0
  end.

(** The queue depth a successful [LLEN] reported. *)
Definition pending_of (llen : string → outcome Z) (queue_name : string) : Z :=
  match llen queue_name with Returns n => n | Raises _ => 0 end.

(** A Redis whose lists are given by a table of depths; a key listed in
    [broken] makes [LLEN] fail. *)
Definition llen_sample (broken : list string) (q : string) : outcome Z :=
  if mem_string q broken then Raises (BrokerError "WRONGTYPE")
  else Returns (if String.eqb q "default" then 3 else 0).

Definition subscriptions_sample : option (list (string * list pydict)) :=
  Some [ ("worker@1", [ [ ("name", PStr "default") ]; [ ("name", PStr "backup") ] ]);
         ("worker@2", [ [ ("name", PStr "default") ] ]) ].

Definition tasks_sample : option (list (string * list pyval)) :=
  Some [ ("worker@1", [ PStr "t1"; PStr "t2" ]);
         ("worker@2", [ PStr "t3" ]);
         ("worker@3", [ PStr "t4" ]) ].

End QueueListTerms.

Section StatusSampleTerms.
Import Env.

(** A world whose worker introspection fails. *)
Definition world_no_workers : world :=
  {| redis_url_error := None;
     redis_fault := λ _, None;
     inspect_stats := Raises (BrokerError "inspect timed out");
     inspect_active := Returns None;
     utcnow := 1000000000000;
     celery_settings := ∅ |}.

(** A world whose stored retention is [None]. *)
Definition world_null_retention : world :=
  {| redis_url_error := None;
     redis_fault := λ _, None;
     inspect_stats := Returns None;
     inspect_active := Returns None;
     utcnow := 1000000000000;
     celery_settings := {[ "cleanup_age_hours" := PNone ]} |}.

End StatusSampleTerms.

Section SettingsSampleTerms.
Import CelerySettings.

(** The [built_in] flag a stored queue carries. *)
Definition stored_flag (q : pyval) : option pyval :=
  match q with PDict d => dict_get d "built_in" | _ => None end.

(** A request that touches only the retention age. *)
Definition age_request (v : option Z) : CelerySettingsRequest :=
  {| max_workers := None; cleanup_enabled := None;
     cleanup_interval_hours := None; cleanup_age_hours := Some v;
     result_expires_hours := None; queues := None |}.

(** A request whose custom queue claims to be built in. *)
Definition claiming_request : CelerySettingsRequest :=
  {| max_workers := None; cleanup_enabled := None;
     cleanup_interval_hours := None; cleanup_age_hours := None;
     result_expires_hours := None;
     queues :=
       Some (Some [ {| name := "default"; description := None; built_in := Some false |};
                    {| name := "backup"; description := None; built_in := None |};
                    {| name := "network"; description := None; built_in := None |};
                    {| name := "heavy"; description := None; built_in := None |};
                    {| name := "mine"; description := Some "custom"; built_in := Some true |};
                    {| name := "other"; description := None; built_in := None |} ]) |}.

End SettingsSampleTerms.

(** 2026-11-04T12:00:00 UTC, in microseconds since 0001-01-01. *)
Definition utc_2026 : Z := 63929390400000000.

(** A healthy world, at that time, whose stored Celery settings are [m]. *)
Definition world_with_settings (m : gmap string pyval) : Env.world :=
  {| Env.redis_url_error := None;
     Env.redis_fault := λ _, None;
     Env.inspect_stats := Returns None;
     Env.inspect_active := Returns None;
     Env.utcnow := utc_2026;
     Env.celery_settings := m |}.

(** * Properties *)

(** ** Job dispatcher *)

Section DispatcherFacts.
Import Dispatcher.

Lemma job_executors_lookup (job_type : string) :
  job_executors !! job_type
  = if decide (job_type = "example") then Some execute_example else None.
Proof.
  unfold job_executors. destruct (decide (job_type = "example")) as [->|Hne].
  - apply lookup_singleton_eq.
  - apply lookup_singleton_ne. congruence.
Qed.

(** C1: a job type outside the executor table yields the failure mapping
    [{success: False, error: "Unknown job type: <type>"}] as a normal
    return value, whatever the other arguments are; a registered job type
    yields exactly what its executor yields. *)
Theorem execute_job_type_contract (job_type : string) (a : job_args) :
  (job_executors !! job_type = None →
     execute_job_type job_type a
     = Returns [ ("success", PBool false);
                 ("error", PStr ("Unknown job type: " +:+ job_type)) ])
  ∧ (∀ ex, job_executors !! job_type = Some ex →
       execute_job_type job_type a = ex a).
Proof.
  unfold execute_job_type, executor. split.
  - intros ->. reflexivity.
  - intros ex ->. reflexivity.
Qed.

Lemma execute_job_type_contract_witness :
  execute_job_type "backup" sample_args
  = Returns [ ("success", PBool false);
              ("error", PStr "Unknown job type: backup") ]
  ∧ execute_job_type "example" sample_args = execute_example sample_args.
Proof.
  split.
  - apply (proj1 (execute_job_type_contract "backup" sample_args)).
    vm_compute. reflexivity.
  - apply (proj2 (execute_job_type_contract "example" sample_args)).
    vm_compute. reflexivity.
Defined.

(** The only registered type is ["example"], and its executor returns. *)
Lemma execute_job_type_total (job_type : string) (a : job_args) :
  ∃ r, execute_job_type job_type a = Returns r.
Proof.
  pose proof (job_executors_lookup job_type) as Hl.
  unfold execute_job_type, executor in *. rewrite Hl.
  case_decide; eexists; reflexivity.
Qed.

End DispatcherFacts.

(** ** Job template registry *)

Section TemplateFacts.
Import Templates.

Lemma in_scope_created n jt descr g uid by_ d :
  in_scope (target_scope g uid)
    (fst (create d n jt descr g (target_scope g uid) by_)) = true.
Proof.
  unfold target_scope. destruct g; simpl; [reflexivity|].
  apply Z.eqb_refl.
Qed.

Lemma check_name_exists_app d l n scope ex :
  check_name_exists
    {| rows := rows d ++ l; next_id := next_id d + 1; clock := clock d |}
    n scope ex
  = check_name_exists d n scope ex
    || check_name_exists {| rows := l; next_id := 0; clock := 0 |} n scope ex.
Proof. unfold check_name_exists. simpl. apply existsb_app. Qed.

Lemma create_job_template_fresh d n jt uid by_ descr g :
  check_name_exists d n (target_scope g uid) None = false →
  create_job_template d n jt uid by_ descr g
  = (Returns (_model_to_dict (fst (create d n jt descr g (target_scope g uid) by_))),
     snd (create d n jt descr g (target_scope g uid) by_)).
Proof.
  intros H. unfold create_job_template. fold (target_scope g uid).
  rewrite H. reflexivity.
Qed.

Lemma create_job_template_taken d n jt uid by_ descr g :
  check_name_exists d n (target_scope g uid) None = true →
  create_job_template d n jt uid by_ descr g = (Raises (duplicate_name n), d).
Proof.
  intros H. unfold create_job_template. fold (target_scope g uid).
  rewrite H. reflexivity.
Qed.

(** The lookup finds a name exactly when some row carries it in the
    queried scope. *)
Lemma check_name_exists_iff d n scope :
  check_name_exists d n scope None = true
  ↔ ∃ t, t ∈ rows d ∧ name t = n ∧ in_scope scope t = true.
Proof.
  unfold check_name_exists. rewrite existsb_exists. split.
  - intros (t & Hin & Ht). exists t.
    rewrite andb_true_r in Ht. apply andb_true_iff in Ht as [Hn Hs].
    apply String.eqb_eq in Hn. by rewrite list_elem_of_In.
  - intros (t & Hin & Hn & Hs). exists t. split; [by apply list_elem_of_In|].
    rewrite andb_true_r, Hs, andb_true_r. by apply String.eqb_eq.
Qed.

(** After a create, the name is taken in the scope it targeted. *)
Lemma check_after_create d n jt descr g uid by_ :
  check_name_exists (snd (create d n jt descr g (target_scope g uid) by_))
    n (target_scope g uid) None = true.
Proof.
  unfold create. cbn [snd]. rewrite check_name_exists_app.
  apply orb_true_iff. right.
  unfold check_name_exists. cbn [rows existsb name].
  rewrite String.eqb_refl.
  pose proof (in_scope_created n jt descr g uid by_ d) as Hs.
  unfold create in Hs. cbn [fst] in Hs. rewrite Hs. reflexivity.
Qed.

(** A create in one scope does not take the name in any other scope. *)
Lemma check_other_scope d n jt descr g uid by_ scope :
  scope ≠ target_scope g uid →
  check_name_exists (snd (create d n jt descr g (target_scope g uid) by_))
    n scope None
  = check_name_exists d n scope None.
Proof.
  intros Hne. unfold create. cbn [snd]. rewrite check_name_exists_app.
  unfold check_name_exists at 2. cbn [rows existsb].
  replace (in_scope scope _) with false; [by rewrite andb_false_r, !orb_false_r|].
  symmetry. unfold target_scope in *.
  destruct scope as [u|], g; cbn in *; try congruence; try reflexivity.
  destruct (Z.eqb_spec uid u); [congruence|reflexivity].
Qed.

(** C2: a create whose name is already taken in its target scope (the
    global scope when [is_global], the owner's private scope otherwise)
    fails with the duplicate-name error and writes nothing; in
    particular a second create of the same name in the same scope fails
    after a first one succeeded.  A create whose name is free returns the
    new template, which is the row appended to the table.  The same name
    in the global scope and in a private scope is accepted for both, in
    either order. *)
Theorem create_job_template_scoped_uniqueness
    (d : db) (n jt by_ : string) (uid : Z) (descr : option string) (g : bool) :
  (check_name_exists d n (target_scope g uid) None = true →
     create_job_template d n jt uid by_ descr g
     = (Raises (duplicate_name n), d))
  ∧ (check_name_exists d n (target_scope g uid) None = false →
     ∃ t, create_job_template d n jt uid by_ descr g
          = (Returns (_model_to_dict t),
             {| rows := rows d ++ [t]; next_id := next_id d + 1;
                clock := clock d |})
          ∧ id t = next_id d ∧ name t = n ∧ job_type t = jt
          ∧ description t = descr ∧ is_global t = g
          ∧ user_id t = target_scope g uid ∧ created_by t = by_)
  ∧ (∀ r d', create_job_template d n jt uid by_ descr g = (Returns r, d') →
     ∀ jt2 by2 descr2 g2 uid2,
       target_scope g2 uid2 = target_scope g uid →
       create_job_template d' n jt2 uid2 by2 descr2 g2
       = (Raises (duplicate_name n), d'))
  ∧ (check_name_exists d n None None = false →
     check_name_exists d n (Some uid) None = false →
     ∀ jt2 by2 descr2 uid0,
       (∃ r1 d1 r2 d2,
          create_job_template d n jt uid0 by_ descr true = (Returns r1, d1)
          ∧ create_job_template d1 n jt2 uid by2 descr2 false
            = (Returns r2, d2))
       ∧ (∃ r1 d1 r2 d2,
          create_job_template d n jt uid by_ descr false = (Returns r1, d1)
          ∧ create_job_template d1 n jt2 uid0 by2 descr2 true
            = (Returns r2, d2))).
Proof.
  repeat split.
  - apply create_job_template_taken.
  - intros H. rewrite (create_job_template_fresh _ _ _ _ _ _ _ H).
    eexists. split; [reflexivity|]. cbn. auto 10.
  - intros r d' Hc jt2 by2 descr2 g2 uid2 Hs.
    destruct (check_name_exists d n (target_scope g uid) None) eqn:E.
    + rewrite (create_job_template_taken _ _ _ _ _ _ _ E) in Hc. discriminate.
    + rewrite (create_job_template_fresh _ _ _ _ _ _ _ E) in Hc.
      injection Hc as _ <-.
      apply create_job_template_taken. rewrite Hs. apply check_after_create.
  - assert (Hg : check_name_exists d n (target_scope true uid0) None = false)
      by exact H.
    do 4 eexists. split.
    + apply (create_job_template_fresh _ _ _ _ _ _ _ Hg).
    + apply create_job_template_fresh.
      change (target_scope false uid) with (Some uid).
      rewrite check_other_scope; [assumption|discriminate].
  - assert (Hp : check_name_exists d n (target_scope false uid) None = false)
      by exact H0.
    do 4 eexists. split.
    + apply (create_job_template_fresh _ _ _ _ _ _ _ Hp).
    + apply create_job_template_fresh.
      change (target_scope true uid0) with (@None Z).
      rewrite check_other_scope; [assumption|discriminate].
Qed.

End TemplateFacts.

Section TemplateUpdateFacts.
Import Templates.

Lemma create_job_template_scoped_uniqueness_witness :
  create_job_template db_nightly "nightly" "example" 5 "eve" None false
  = (Raises (duplicate_name "nightly"), db_nightly)
  ∧ (∃ t, create_job_template db_empty "nightly" "example" 5 "bob" None false
          = (Returns (_model_to_dict t),
             {| rows := rows db_empty ++ [t]; next_id := next_id db_empty + 1;
                clock := clock db_empty |})
          ∧ id t = next_id db_empty ∧ name t = "nightly"
          ∧ job_type t = "example" ∧ description t = None
          ∧ is_global t = false ∧ user_id t = target_scope false 5
          ∧ created_by t = "bob")
  ∧ create_job_template db_nightly "nightly" "example" 5 "eve" (Some "again") false
    = (Raises (duplicate_name "nightly"), db_nightly)
  ∧ (∃ r1 d1 r2 d2,
       create_job_template db_empty "nightly" "example" 9 "bob" None true
       = (Returns r1, d1)
       ∧ create_job_template d1 "nightly" "example" 5 "eve" None false
         = (Returns r2, d2)).
Proof.
  split; [|split; [|split]].
  - apply (proj1 (create_job_template_scoped_uniqueness
                    db_nightly "nightly" "example" "eve" 5 None false)).
    vm_compute. reflexivity.
  - apply (proj1 (proj2 (create_job_template_scoped_uniqueness
                    db_empty "nightly" "example" "bob" 5 None false))).
    vm_compute. reflexivity.
  - eapply (proj1 (proj2 (proj2 (create_job_template_scoped_uniqueness
                    db_empty "nightly" "example" "bob" 5 None false)))).
    + vm_compute. reflexivity.
    + reflexivity.
  - apply (proj1 (proj2 (proj2 (proj2 (create_job_template_scoped_uniqueness
                    db_empty "nightly" "example" "bob" 5 None false)))
                    eq_refl eq_refl "example" "eve" None 9)).
Defined.

(** [get_by_id] against the table contents. *)
Lemma get_by_id_found d i t :
  get_by_id d i = Some t → t ∈ rows d ∧ id t = i.
Proof.
  unfold get_by_id. intros H. apply find_some in H as [Hin Hid].
  split; [by apply list_elem_of_In|by apply Z.eqb_eq].
Qed.

Lemma get_by_id_missing d i :
  get_by_id d i = None ↔ ∀ t, t ∈ rows d → id t ≠ i.
Proof.
  unfold get_by_id. split.
  - intros H t Hin Hid. apply list_elem_of_In in Hin.
    pose proof (find_none _ _ H t Hin) as Hf. cbn in Hf.
    apply Z.eqb_neq in Hf. contradiction.
  - intros H. destruct (List.find _ _) as [t|] eqn:E; [|reflexivity].
    apply find_some in E as [Hin Hid]. apply Z.eqb_eq in Hid.
    exfalso. apply (H t); [by apply list_elem_of_In|exact Hid].
Qed.

(** C10: with [name], [description] and [is_global] all absent the update
    writes nothing: the table after the call is the table before it,
    whatever owner id is passed.  The result is the current state of a
    stored template with that id when one exists, and the not-found value
    when none does. *)
Theorem update_job_template_no_fields (d : db) (template_id : Z)
    (uid : option Z) :
  ∃ r,
    update_job_template d template_id None None None uid = (Returns r, d)
    ∧ ((∃ t, t ∈ rows d ∧ id t = template_id) →
       ∃ t, t ∈ rows d ∧ id t = template_id ∧ r = Some (_model_to_dict t))
    ∧ ((∀ t, t ∈ rows d → id t ≠ template_id) → r = None).
Proof.
  exists (get_job_template d template_id).
  split; [reflexivity|]. unfold get_job_template. split.
  - intros (t & Hin & Hid).
    destruct (get_by_id d template_id) as [t'|] eqn:E.
    + exists t'. destruct (get_by_id_found _ _ _ E). auto.
    + exfalso. exact (proj1 (get_by_id_missing d template_id) E t Hin Hid).
  - intros Hnone. by rewrite (proj2 (get_by_id_missing d template_id) Hnone).
Qed.

Lemma update_job_template_no_fields_witness :
  ∃ r,
    update_job_template db_two 2 None None None (Some 5) = (Returns r, db_two)
    ∧ ∃ t, t ∈ rows db_two ∧ id t = 2 ∧ r = Some (_model_to_dict t).
Proof.
  destruct (update_job_template_no_fields db_two 2 (Some 5))
    as (r & Hrun & Hfound & _).
  exists r. split; [exact Hrun|].
  apply Hfound. eexists. split.
  - apply list_elem_of_lookup. exists 1%nat. reflexivity.
  - reflexivity.
Defined.

(** The duplicate-name error of an update is raised exactly when a name
    is supplied and the lookup keyed by the caller's owner id finds it;
    the [is_global] argument plays no part in that lookup. *)
Lemma update_job_template_raises_iff d template_id n descr g uid e :
  fst (update_job_template d template_id n descr g uid) = Raises e
  ↔ ∃ n', n = Some n' ∧ e = duplicate_name n'
          ∧ check_name_exists d n' uid (Some template_id) = true.
Proof.
  unfold update_job_template, apply_update. split.
  - destruct n as [n'|].
    + destruct (check_name_exists d n' uid (Some template_id)) eqn:E.
      * cbn. intros [= <-]. eauto.
      * destruct (kwargs_empty _); [discriminate|].
        destruct (update d template_id _) as [[t|] d']; discriminate.
    + destruct (kwargs_empty _); [discriminate|].
      destruct (update d template_id _) as [[t|] d']; discriminate.
  - intros (n' & -> & -> & H). rewrite H. reflexivity.
Qed.

(** When [is_global] is set to true the stored owner is cleared, and when
    it is set to false with an owner id supplied that owner is stored. *)
Lemma update_data_owner n descr g uid :
  kw_user_id (update_data n descr (Some true) uid) = Some None
  ∧ kw_user_id (update_data n descr (Some false) (Some g)) = Some (Some g).
Proof. split; reflexivity. Qed.

(** C5 at a concrete input: renaming the private template 2 of user 5 to
    "X" while making it global is accepted although a global "X" exists,
    because the lookup is keyed by the caller's owner id; the table then
    holds two global templates named "X".  The create path, keyed by the
    target scope, refuses the same name. *)
Theorem update_job_template_global_rename_unchecked :
  check_name_exists db_two "X" None (Some 2) = true
  ∧ check_name_exists db_two "X" (Some 5) (Some 2) = false
  ∧ (∃ r d', update_job_template db_two 2 (Some "X") None (Some true) (Some 5)
             = (Returns (Some r), d')
             ∧ map (λ t, (id t, name t, is_global t, user_id t)) (rows d')
               = [ (1, "X", true, None); (2, "X", true, None) ])
  ∧ create_job_template db_two "X" "example" 5 "bob" None true
    = (Raises (duplicate_name "X"), db_two).
Proof.
  split; [reflexivity|]. split; [reflexivity|]. split; [|reflexivity].
  do 2 eexists. split; reflexivity.
Qed.

End TemplateUpdateFacts.

(** ** Queue control plane: purge-all *)

Section PurgeFacts.
Import CeleryStatus.
Variable broker : Type.
Variable acquire : broker → option exn.
Variable purge : Queue → broker → outcome (option Z) * broker.

Local Abbreviation purge_one := (purge_one broker purge).
Local Abbreviation purge_loop := (purge_loop broker purge).
Local Abbreviation entries_of := (entries_of broker purge).
Local Abbreviation total_of := (total_of broker purge).
Local Abbreviation broker_after := (broker_after broker purge).
Local Abbreviation purged_in_order := (purged_in_order broker purge).

Lemma purge_one_entry q cfg b :
  (purge_one q cfg b).1.1 = entry_of q (purge (make_queue q cfg) b).1
  ∧ (purge_one q cfg b).1.2 = entry_count (purge_one q cfg b).1.1
  ∧ (purge_one q cfg b).2 = (purge (make_queue q cfg) b).2.
Proof.
  unfold CeleryStatus.purge_one.
  destruct (purge (make_queue q cfg) b) as [[c|e] b']; cbn; auto.
Qed.

Lemma purge_loop_cons q cfg rest b acc tot :
  purge_loop ((q, cfg) :: rest) b acc tot
  = purge_loop rest (purge_one q cfg b).2
      (acc ++ [(purge_one q cfg b).1.1]) (tot + (purge_one q cfg b).1.2).
Proof. cbn. destruct (purge_one q cfg b) as [[e n] b']. reflexivity. Qed.

Lemma purge_loop_acc qs : ∀ b acc tot,
  purge_loop qs b acc tot
  = (acc ++ entries_of qs b, tot + total_of qs b, broker_after qs b).
Proof.
  unfold entries_of, total_of, broker_after.
  induction qs as [|[q cfg] rest IH]; intros b acc tot.
  - cbn. by rewrite app_nil_r, Z.add_0_r.
  - rewrite !purge_loop_cons, IH.
    rewrite (IH _ ([] ++ _) (0 + _)). cbn.
    by rewrite <- app_assoc, Z.add_assoc.
Qed.

Lemma entries_of_cons q cfg rest b :
  entries_of ((q, cfg) :: rest) b
  = (purge_one q cfg b).1.1 :: entries_of rest (purge_one q cfg b).2.
Proof.
  unfold entries_of at 1. rewrite purge_loop_cons, purge_loop_acc.
  reflexivity.
Qed.

Lemma total_of_cons q cfg rest b :
  total_of ((q, cfg) :: rest) b
  = (purge_one q cfg b).1.2 + total_of rest (purge_one q cfg b).2.
Proof.
  unfold total_of at 1. rewrite purge_loop_cons, purge_loop_acc.
  reflexivity.
Qed.

Lemma broker_after_cons q cfg rest b :
  broker_after ((q, cfg) :: rest) b
  = broker_after rest (purge_one q cfg b).2.
Proof.
  unfold broker_after at 1. rewrite purge_loop_cons, purge_loop_acc.
  reflexivity.
Qed.

Lemma entries_of_length qs : ∀ b, length (entries_of qs b) = length qs.
Proof.
  induction qs as [|[q cfg] rest IH]; intros b; [reflexivity|].
  rewrite entries_of_cons. cbn. by rewrite IH.
Qed.

Lemma entries_of_names qs : ∀ b,
  map (λ e, dict_get e "queue") (entries_of qs b)
  = map (λ q, Some (PStr q.1)) qs.
Proof.
  induction qs as [|[q cfg] rest IH]; intros b; [reflexivity|].
  rewrite entries_of_cons. cbn [map]. rewrite IH. f_equal.
  destruct (purge_one_entry q cfg b) as (-> & _ & _).
  by destruct (purge (make_queue q cfg) b).1.
Qed.

Lemma total_of_sum qs : ∀ b, total_of qs b = sum_counts (entries_of qs b).
Proof.
  induction qs as [|[q cfg] rest IH]; intros b; [reflexivity|].
  rewrite total_of_cons, entries_of_cons. cbn. rewrite IH.
  by destruct (purge_one_entry q cfg b) as (_ & -> & _).
Qed.

(** The entry of the queue at position [length pre] is decided by the
    broker's answer for that queue alone, in the state the earlier
    purges left behind. *)
Lemma entries_of_nth pre : ∀ b q cfg post,
  entries_of (pre ++ (q, cfg) :: post) b !! length pre
  = Some (entry_of q (purge (make_queue q cfg) (broker_after pre b)).1).
Proof.
  induction pre as [|[q0 cfg0] pre IH]; intros b q cfg post.
  - cbn [app length]. rewrite entries_of_cons. cbn.
    by destruct (purge_one_entry q cfg b) as (-> & _ & _).
  - cbn [app length]. rewrite entries_of_cons, broker_after_cons. cbn.
    apply IH.
Qed.

(** The handler's loop leaves the broker exactly as purging each queue in
    turn leaves it. *)
Lemma broker_after_purged qs : ∀ b, broker_after qs b = purged_in_order qs b.
Proof.
  unfold CeleryStatus.purge_one.
  induction qs as [|[q cfg] rest IH]; intros b; [reflexivity|].
  rewrite broker_after_cons, IH. cbn.
  by destruct (purge_one_entry q cfg b) as (_ & _ & ->).
Qed.

(** C3: once a connection is acquired, purge-all purges every configured
    queue, one after the other: the broker it leaves is the broker after
    the purge of each queue in configuration order.  It answers with a
    success envelope holding one result entry per configured queue, in
    that order.  The entry of each queue is decided by the broker's answer
    to that queue's purge alone, issued on the broker as the purges of the
    earlier queues left it, whether those succeeded or failed: a purge
    that raises is recorded as an error entry with count 0 and the loop
    goes on with the next queue; a purge that returns contributes its
    count, and a count of 0 gives the plain entry with 0 and no error.
    The total is the sum of the counts of the entries without error.
    When no connection can be acquired the handler raises status 500 and
    the broker is left as it was. *)
Theorem purge_all_queues_partial_failure
    (conf_task_queues : option (list (string * pydict))) (b : broker) :
  (acquire b = None →
   ∃ entries,
     purge_all_queues broker acquire purge conf_task_queues b
     = (Returns (purge_all_response (sum_counts entries) entries),
        purged_in_order (default [] conf_task_queues) b)
     ∧ length entries = length (default [] conf_task_queues)
     ∧ map (λ e, dict_get e "queue") entries
       = map (λ q, Some (PStr q.1)) (default [] conf_task_queues)
     ∧ (∀ pre queue_name queue_config post,
          default [] conf_task_queues
          = pre ++ (queue_name, queue_config) :: post →
          entries !! length pre
          = Some (entry_of queue_name
                    (purge (make_queue queue_name queue_config)
                       (purged_in_order pre b)).1)
          ∧ ((purge (make_queue queue_name queue_config)
                (purged_in_order pre b)).1 = Returns (Some 0) →
             entries !! length pre
             = Some [ ("queue", PStr queue_name); ("purged_tasks", PInt 0) ])))
  ∧ (∀ e, acquire b = Some e →
       purge_all_queues broker acquire purge conf_task_queues b
       = (Raises (HTTPException 500
                    ("Failed to purge all queues: " +:+ exn_str e)), b)).
Proof.
  split.
  - intros Hacq. unfold purge_all_queues. rewrite Hacq.
    set (qs := default [] conf_task_queues).
    rewrite purge_loop_acc. cbn [app].
    exists (entries_of qs b). split.
    + rewrite Z.add_0_l, total_of_sum, broker_after_purged. reflexivity.
    + split; [apply entries_of_length|]. split; [apply entries_of_names|].
      intros pre q cfg post ->. rewrite <- broker_after_purged. split.
      * apply entries_of_nth.
      * intros H0. rewrite entries_of_nth, H0. reflexivity.
  - intros e He. unfold purge_all_queues. by rewrite He.
Qed.

(** Without a connection nothing is purged and the request fails. *)
Lemma purge_all_queues_no_connection conf b e :
  acquire b = Some e →
  purge_all_queues broker acquire purge conf b
  = (Raises (HTTPException 500 ("Failed to purge all queues: " +:+ exn_str e)),
     b).
Proof. intros H. unfold purge_all_queues. by rewrite H. Qed.

End PurgeFacts.

(** *** A list-backed broker, to run purge-all on *)

Lemma purge_all_queues_partial_failure_witness :
  lb_acquire broker_sample = None
  ∧ (∃ entries,
       CeleryStatus.purge_all_queues list_broker lb_acquire lb_purge
         (Some three_queues) broker_sample
       = (Returns (CeleryStatus.purge_all_response (sum_counts entries) entries),
          purged_in_order list_broker lb_purge three_queues broker_sample)
       ∧ length entries = 3%nat
       ∧ entries !! 1%nat
         = Some [ ("queue", PStr "backup"); ("purged_tasks", PInt 0);
                  ("error", PStr "channel closed") ])
  ∧ lb_depth (purged_in_order list_broker lb_purge three_queues broker_sample)
    = {[ "default" := 0; "backup" := 4; "network" := 0 ]}
  ∧ CeleryStatus.purge_all_queues list_broker lb_acquire lb_purge
      (Some three_queues) broker_down
    = (Raises (HTTPException 500 "Failed to purge all queues: Connection refused"),
       broker_down).
Proof.
  split; [reflexivity|]. split; [|split].
  - destruct (proj1 (purge_all_queues_partial_failure list_broker lb_acquire
                       lb_purge (Some three_queues) broker_sample) eq_refl)
      as (entries & Hrun & Hlen & _ & Hnth).
    exists entries. split; [exact Hrun|]. split; [exact Hlen|].
    destruct (Hnth [("default", [ ("exchange", PStr "default");
                                  ("routing_key", PStr "default") ])]
                "backup" [] [("network", [ ("exchange", PStr "network") ])]
                eq_refl) as [Hk _].
    exact Hk.
  - vm_compute. reflexivity.
  - exact (proj2 (purge_all_queues_partial_failure list_broker lb_acquire
                    lb_purge (Some three_queues) broker_down)
             (BrokerError "Connection refused") eq_refl).
Defined.

(** Counterexample to C3 as the claim states it: with three queues
    configured and a broker that cannot be reached, the request has no
    response with three per-queue results; it fails with status 500 and no
    queue is purged. *)
Lemma purge_all_queues_unreachable_counterexample :
  CeleryStatus.purge_all_queues list_broker lb_acquire lb_purge
    (Some three_queues) broker_down
  = (Raises (HTTPException 500 "Failed to purge all queues: Connection refused"),
     broker_down).
Proof. vm_compute. reflexivity. Qed.

(** The run spelled out: the broken queue is reported, the queues around it
    are drained, and a second run finds them empty and reports 0. *)
Example purge_all_queues_run :
  ∃ b',
    CeleryStatus.purge_all_queues list_broker lb_acquire lb_purge
      (Some three_queues) broker_sample
    = (Returns
         (CeleryStatus.purge_all_response 3
            [ [ ("queue", PStr "default"); ("purged_tasks", PInt 3) ];
              [ ("queue", PStr "backup"); ("purged_tasks", PInt 0);
                ("error", PStr "channel closed") ];
              [ ("queue", PStr "network"); ("purged_tasks", PInt 0) ] ]),
       b')
    ∧ lb_depth b' = {[ "default" := 0; "backup" := 4; "network" := 0 ]}
    ∧ (CeleryStatus.purge_all_queues list_broker lb_acquire lb_purge
         (Some three_queues) b').1
      = Returns
          (CeleryStatus.purge_all_response 0
             [ [ ("queue", PStr "default"); ("purged_tasks", PInt 0) ];
               [ ("queue", PStr "backup"); ("purged_tasks", PInt 0);
                 ("error", PStr "channel closed") ];
               [ ("queue", PStr "network"); ("purged_tasks", PInt 0) ] ]).
Proof. eexists. split; [|split]; vm_compute; reflexivity. Qed.

(** ** Queue control plane: scheduler and broker status *)

(** An event that does not occur in a finished, explicit log. *)
Ltac not_logged H :=
  repeat (apply elem_of_cons in H as [H|H]; [discriminate H|]);
  by apply elem_of_nil in H.

Section StatusFacts.
Import Env CeleryStatus.

Ltac run_io :=
  unfold celery_status, beat_status, try_except, inspect_call, from_url,
    r_ping, r_exists, command, record, fresh;
  unfold mbind, io_bind, mret, io_ret; cbn.

Lemma py_bool_exists (k : gmap string string) (key : string) :
  py_bool (if decide (is_Some (k !! key)) then 1 else 0)
  = bool_decide (is_Some (k !! key)).
Proof.
  case_decide; [by rewrite bool_decide_eq_true_2|by rewrite bool_decide_eq_false_2].
Qed.

(** The dedicated endpoint: when Redis answers, the scheduler is reported
    running exactly when the lock key or the schedule key is present. *)
Lemma beat_status_running_iff (w : world) (k : gmap string string) :
  redis_url_error w = None →
  redis_fault w (Exists beat_lock_key) = None →
  redis_fault w (Exists beat_schedule_key) = None →
  ∃ b msg,
    (beat_status w (fresh k)).1
    = Returns [ ("success", PBool true); ("beat_running", PBool b);
                ("message", PStr msg) ]
    ∧ (b = true ↔ is_Some (k !! beat_lock_key) ∨ is_Some (k !! beat_schedule_key)).
Proof.
  unfold beat_lock_key, beat_schedule_key. intros Hu Hl Hs. run_io.
  rewrite Hu. cbn. rewrite Hl. cbn. rewrite Hs. cbn.
  do 2 eexists. split; [reflexivity|].
  repeat case_decide; cbn; intuition congruence.
Qed.

(** The overall status: when both Redis round trips succeed, the scheduler
    is reported running exactly when the lock key is present; the schedule
    key is never consulted. *)
Lemma celery_status_beat_lock_only (w : world) (k : gmap string string) stats active :
  inspect_stats w = Returns stats →
  inspect_active w = Returns active →
  redis_url_error w = None →
  redis_fault w (Exists beat_lock_key) = None →
  ∃ rc wc tc,
    (celery_status w (fresh k)).1
    = Returns (status_envelope rc wc tc (bool_decide (is_Some (k !! beat_lock_key)))).
Proof.
  unfold beat_lock_key. intros Hst Hac Hu Hl. run_io.
  rewrite Hst, Hac. cbn. rewrite Hu. cbn.
  destruct (redis_fault w Ping); cbn; rewrite Hl; cbn;
    rewrite py_bool_exists; do 3 eexists; reflexivity.
Qed.

(** C6 at a concrete input: with only the persisted schedule key in the
    store, the dedicated endpoint reports the scheduler running while the
    overall status reports it not running. *)
Theorem celery_status_misses_schedule_key :
  let k : gmap string string := {[ beat_schedule_key := "entries" ]} in
  (beat_status world_ok (fresh k)).1
  = Returns [ ("success", PBool true); ("beat_running", PBool true);
              ("message", PStr "Beat is running") ]
  ∧ (celery_status world_ok (fresh k)).1
    = Returns (status_envelope true 1 0 false).
Proof. split; vm_compute; reflexivity. Qed.

(** C7: in every run of the overall status in which the ping is issued and
    raises, the handler returns the success envelope with
    [redis_connected] false; in every run in which the ping is answered it
    returns the envelope with [redis_connected] true. *)
Theorem celery_status_probe_fails_closed (w : world) (k : gmap string string) :
  (EvRedis Ping false ∈ log (celery_status w (fresh k)).2 →
     ∃ wc tc br,
       (celery_status w (fresh k)).1 = Returns (status_envelope false wc tc br))
  ∧ (EvRedis Ping true ∈ log (celery_status w (fresh k)).2 →
     ∃ wc tc br,
       (celery_status w (fresh k)).1 = Returns (status_envelope true wc tc br)).
Proof.
  run_io.
  destruct (inspect_stats w) as [stats|e1]; cbn;
    [|split; intros H; not_logged H].
  destruct (inspect_active w) as [active|e2]; cbn;
    [|split; intros H; not_logged H].
  destruct (redis_url_error w) as [e3|]; cbn.
  - split; intros H; not_logged H.
  - destruct (redis_fault w Ping) as [e4|]; cbn;
      destruct (redis_fault w (Exists "cockpit-ng:beat::lock")) as [e5|]; cbn;
      (split; intros H;
       first [ by (do 3 eexists; reflexivity) | not_logged H ]).
Qed.

Lemma celery_status_probe_fails_closed_witness :
  EvRedis Ping false ∈ log (celery_status world_redis_down (fresh ∅)).2
  ∧ (∃ wc tc br,
       (celery_status world_redis_down (fresh ∅)).1
       = Returns (status_envelope false wc tc br))
  ∧ EvRedis Ping true ∈ log (celery_status world_ok (fresh ∅)).2
  ∧ (∃ wc tc br,
       (celery_status world_ok (fresh ∅)).1
       = Returns (status_envelope true wc tc br)).
Proof.
  assert (H1 : EvRedis Ping false
               ∈ log (celery_status world_redis_down (fresh ∅)).2).
  { vm_compute. repeat constructor. }
  assert (H2 : EvRedis Ping true ∈ log (celery_status world_ok (fresh ∅)).2).
  { vm_compute. repeat constructor. }
  split; [exact H1|]. split.
  - exact (proj1 (celery_status_probe_fails_closed world_redis_down ∅) H1).
  - split; [exact H2|].
    exact (proj2 (celery_status_probe_fails_closed world_ok ∅) H2).
Defined.

(** Without the trace: once both worker-introspection calls have returned,
    the handler returns, and [redis_connected] says whether the client
    could be built and the ping was answered. *)
Lemma celery_status_returns (w : world) (k : gmap string string) stats active :
  inspect_stats w = Returns stats →
  inspect_active w = Returns active →
  ∃ wc tc br,
    (celery_status w (fresh k)).1
    = Returns (status_envelope
                 match redis_url_error w, redis_fault w Ping with
                 | None, None => true
                 | _, _ => false
                 end
                 wc tc br).
Proof.
  intros Hst Hac. run_io. rewrite Hst, Hac. cbn.
  destruct (redis_url_error w) as [e3|]; cbn.
  - do 3 eexists. reflexivity.
  - destruct (redis_fault w Ping) as [e4|]; cbn;
      destruct (redis_fault w (Exists "cockpit-ng:beat::lock")) as [e5|]; cbn;
      do 3 eexists; reflexivity.
Qed.

End StatusFacts.

(** ** Queue control plane: configuration snapshot *)

Section ConfigFacts.
Import CeleryStatus.

Lemma str_bool_nonempty (s : string) : s ≠ "" → str_bool s = true.
Proof. by destruct s. Qed.

Lemma str_bool_true_iff (s : string) : str_bool s = true ↔ s ≠ "".
Proof. destruct s; cbn; split; congruence. Qed.

(** C8: two runs of the snapshot whose environments differ only in the
    value of the broker password, non-empty in both, return the same
    response; and [has_password] is true exactly when the configured
    password (the empty string when the variable is unset) is non-empty. *)
Theorem get_celery_config_hides_password
    (environ : gmap string string) (celery_max_workers : pyval)
    (conf : celery_conf) :
  (∀ p1 p2 : string, p1 ≠ "" → p2 ≠ "" →
     get_celery_config (<[password_var := p1]> environ) celery_max_workers conf
     = get_celery_config (<[password_var := p2]> environ) celery_max_workers conf)
  ∧ (∃ b, dict_at (PDict (get_celery_config environ celery_max_workers conf))
            [ "config"; "redis"; "has_password" ] = Some (PBool b)
          ∧ (b = true ↔ getenv environ password_var "" ≠ "")).
Proof.
  split.
  - intros p1 p2 H1 H2. unfold get_celery_config, getenv, password_var.
    rewrite !lookup_insert_eq.
    rewrite !lookup_insert_ne by discriminate. cbn.
    by rewrite !str_bool_nonempty.
  - eexists. split; [reflexivity|]. apply str_bool_true_iff.
Qed.

Lemma get_celery_config_hides_password_witness :
  get_celery_config
    (<[password_var := "hunter2"]> {[ "COCKPIT_REDIS_HOST" := "redis.local" ]})
    (PInt 4)
    {| worker_prefetch_multiplier := PInt 1;
       worker_max_tasks_per_child := PInt 100;
       task_time_limit := PInt 3600; task_serializer := PStr "json";
       task_track_started := PBool true; result_expires := PInt 86400;
       result_serializer := PStr "json";
       beat_scheduler := PStr "redbeat.RedBeatScheduler";
       beat_schedule := None; timezone := PStr "UTC";
       enable_utc := PBool true |}
  = get_celery_config
      (<[password_var := "correct horse"]> {[ "COCKPIT_REDIS_HOST" := "redis.local" ]})
      (PInt 4)
      {| worker_prefetch_multiplier := PInt 1;
         worker_max_tasks_per_child := PInt 100;
         task_time_limit := PInt 3600; task_serializer := PStr "json";
         task_track_started := PBool true; result_expires := PInt 86400;
         result_serializer := PStr "json";
         beat_scheduler := PStr "redbeat.RedBeatScheduler";
         beat_schedule := None; timezone := PStr "UTC";
         enable_utc := PBool true |}.
Proof.
  apply (proj1 (get_celery_config_hides_password _ _ _)); discriminate.
Defined.

End ConfigFacts.

(** ** Cleanup statistics *)

Section CleanupFacts.
Import Env CeleryCleanup.
Variable isoformat : Z → string.

Lemma result_keys_spec (k : gmap string string) :
  NoDup (result_keys k)
  ∧ ∀ x, x ∈ result_keys k
         ↔ is_Some (k !! x) ∧ String.prefix result_prefix x = true.
Proof.
  unfold result_keys. split.
  - apply NoDup_filter, NoDup_fst_map_to_list.
  - intros x. rewrite list_elem_of_filter, list_elem_of_fmap. split.
    + intros [Hp ([y v] & -> & Hin)]. split; [|exact Hp].
      apply elem_of_map_to_list in Hin. cbn. eauto.
    + intros [[v Hv] Hp]. split; [exact Hp|].
      exists (x, v). split; [reflexivity|]. by apply elem_of_map_to_list.
Qed.

Ltac run_stats :=
  unfold get_cleanup_stats, lift, from_url, r_scan_iter, command, record;
  unfold mbind, io_bind, mret, io_ret.

(** No deletion is ever issued and the key space is left as it was,
    whether the handler returns or raises. *)
Lemma get_cleanup_stats_frame (w : world) (s : st) :
  keys (get_cleanup_stats isoformat w s).2 = keys s
  ∧ ∃ new, log (get_cleanup_stats isoformat w s).2 = log s ++ new
           ∧ ∀ key ok, EvRedis (Del key) ok ∉ new.
Proof.
  run_stats.
  destruct (timedelta_hours _) as [delta|e]; cbn.
  - destruct (datetime_sub _ _) as [cutoff|e]; cbn.
    + destruct (redis_url_error w); cbn.
      * split; [reflexivity|]. eexists. split; [reflexivity|].
        intros key ok H. not_logged H.
      * destruct (redis_fault w _); cbn;
          (split; [reflexivity|]; eexists;
           split; [by rewrite <- app_assoc|]; intros key ok H; not_logged H).
    + split; [reflexivity|]. exists []. split; [by rewrite app_nil_r|].
      intros key ok H. not_logged H.
  - split; [reflexivity|]. exists []. split; [by rewrite app_nil_r|].
    intros key ok H. not_logged H.
Qed.

(** The outcome depends on the world and on the key space only. *)
Lemma get_cleanup_stats_keys_only (w : world) (s1 s2 : st) :
  keys s1 = keys s2 →
  (get_cleanup_stats isoformat w s1).1 = (get_cleanup_stats isoformat w s2).1.
Proof.
  intros Hk. run_stats.
  destruct (timedelta_hours _) as [delta|e]; cbn; [|reflexivity].
  destruct (datetime_sub _ _) as [cutoff|e]; cbn; [|reflexivity].
  destruct (redis_url_error w); cbn; [reflexivity|].
  destruct (redis_fault w _); cbn; [reflexivity|]. by rewrite Hk.
Qed.

(** [timedelta] and the subtraction on a retention whose cutoff is a
    datetime, and on one whose cutoff is not. *)
Lemma cutoff_in_range (now h : Z) :
  0 ≤ now < datetime_span →
  0 ≤ now - h * 3600000000 < datetime_span →
  hours_delta h = Returns (h * 3600000000)
  ∧ datetime_sub now (h * 3600000000) = Returns (now - h * 3600000000).
Proof.
  unfold hours_delta, datetime_sub, datetime_span.
  intros Hnow Hcut. split.
  - assert (Hh : -87649416 ≤ h ≤ 87649416) by lia.
    assert (Hd : -999999999 ≤ h / 24 ≤ 999999999).
    { split.
      - apply Z.div_le_lower_bound; lia.
      - apply Z.div_le_upper_bound; lia. }
    assert (H1 : (- timedelta_max_days <=? h / 24) = true)
      by (unfold timedelta_max_days; apply Z.leb_le; lia).
    assert (H2 : (h / 24 <=? timedelta_max_days) = true)
      by (unfold timedelta_max_days; apply Z.leb_le; lia).
    by rewrite H1, H2.
  - assert (H1 : (0 <=? now - h * 3600000000) = true) by (apply Z.leb_le; lia).
    assert (H2 : (now - h * 3600000000 <? 3652059 * 86400000000) = true)
      by (apply Z.ltb_lt; lia).
    by rewrite H1, H2.
Qed.

Lemma cutoff_out_of_range (now h : Z) :
  ¬ (0 ≤ now - h * 3600000000 < datetime_span) →
  ∃ msg,
    match hours_delta h with
    | Returns delta => datetime_sub now delta
    | Raises e => Raises e
    end = Raises (OverflowError msg).
Proof.
  unfold hours_delta, datetime_sub. intros Hout.
  destruct (_ && _); [|eauto].
  destruct (Z.leb_spec 0 (now - h * 3600000000)); cbn; [|eauto].
  destruct (Z.ltb_spec (now - h * 3600000000) datetime_span); cbn; [lia|eauto].
Qed.

(** C9: in every run the stats read issues no deletion and leaves the
    store as it found it, so a second call on the store it left has the
    same outcome.  When the retention in force is an integer [h] (24 when
    the setting is absent) whose cutoff [now - h] hours is a datetime, and
    Redis answers, it returns the retention [h], that cutoff and the
    number of result records present in the store, counted over a
    duplicate-free list of exactly the stored keys that match
    [celery-task-meta-*].  When the cutoff of an integer retention is not
    a datetime it raises an overflow error before Redis is contacted. *)
Theorem get_cleanup_stats_pure_read (w : world) (k : gmap string string) :
  0 ≤ utcnow w < datetime_span →
  (keys (get_cleanup_stats isoformat w (fresh k)).2 = k
   ∧ (∀ key ok,
        EvRedis (Del key) ok ∉ log (get_cleanup_stats isoformat w (fresh k)).2)
   ∧ (get_cleanup_stats isoformat w (get_cleanup_stats isoformat w (fresh k)).2).1
     = (get_cleanup_stats isoformat w (fresh k)).1)
  ∧ (∀ h,
       default (PInt 24) (celery_settings w !! "cleanup_age_hours") = PInt h →
       0 ≤ utcnow w - h * 3600000000 < datetime_span →
       redis_url_error w = None →
       redis_fault w (ScanIter result_prefix) = None →
       (get_cleanup_stats isoformat w (fresh k)).1
       = Returns
           [ ("success", PBool true);
             ("stats",
              PDict [ ("cleanup_age_hours", PInt h);
                      ("cutoff_time",
                       PStr (isoformat (utcnow w - h * 3600000000)));
                      ("total_result_keys",
                       PInt (Z.of_nat (length (result_keys k))));
                      ("message",
                       PStr ("Cleanup will remove task results older than "
                             +:+ pretty h +:+ " hours")) ]) ]
       ∧ NoDup (result_keys k)
       ∧ ∀ x, x ∈ result_keys k
              ↔ is_Some (k !! x) ∧ String.prefix result_prefix x = true)
  ∧ (∀ h,
       default (PInt 24) (celery_settings w !! "cleanup_age_hours") = PInt h →
       ¬ (0 ≤ utcnow w - h * 3600000000 < datetime_span) →
       ∃ msg,
         get_cleanup_stats isoformat w (fresh k)
         = (Raises (OverflowError msg), fresh k)).
Proof.
  intros Hnow.
  destruct (get_cleanup_stats_frame w (fresh k)) as (Hk & new & Hlog & Hnew).
  split; [split; [exact Hk|split]|split].
  - intros key ok. rewrite Hlog. apply Hnew.
  - apply get_cleanup_stats_keys_only. exact Hk.
  - intros h Hh Hcut Hu Hs. unfold result_prefix in Hs.
    destruct (cutoff_in_range _ _ Hnow Hcut) as [Hd Hsub].
    split; [|apply result_keys_spec].
    run_stats. rewrite Hh. cbn [timedelta_hours]. rewrite Hd. cbn.
    rewrite Hsub. cbn. rewrite Hu. cbn. rewrite Hs. reflexivity.
  - intros h Hh Hout.
    destruct (cutoff_out_of_range (utcnow w) h Hout) as [msg Hmsg].
    exists msg. run_stats. rewrite Hh. cbn [timedelta_hours].
    destruct (hours_delta h) as [delta|e]; cbn.
    + rewrite Hmsg. reflexivity.
    + injection Hmsg as ->. reflexivity.
Qed.

End CleanupFacts.

Lemma get_cleanup_stats_pure_read_witness :
  (CeleryCleanup.get_cleanup_stats pretty (world_with_settings ∅)
     (fresh store_sample)).1
  = Returns
      [ ("success", PBool true);
        ("stats",
         PDict [ ("cleanup_age_hours", PInt 24);
                 ("cutoff_time", PStr "63929304000000000");
                 ("total_result_keys", PInt 2);
                 ("message",
                  PStr "Cleanup will remove task results older than 24 hours") ]) ]
  ∧ Env.keys (CeleryCleanup.get_cleanup_stats pretty (world_with_settings ∅)
                (fresh store_sample)).2
    = store_sample.
Proof.
  assert (Hnow : 0 ≤ Env.utcnow (world_with_settings ∅) < CeleryCleanup.datetime_span)
    by (unfold world_with_settings, utc_2026, CeleryCleanup.datetime_span; cbn; lia).
  destruct (get_cleanup_stats_pure_read pretty (world_with_settings ∅)
              store_sample Hnow) as ((Hk & _ & _) & Hret & _).
  split; [|exact Hk].
  destruct (Hret 24 eq_refl) as (Hr & _ & _);
    [unfold world_with_settings, utc_2026, CeleryCleanup.datetime_span; cbn; lia
    |reflexivity|reflexivity|].
  rewrite Hr. vm_compute. reflexivity.
Defined.

(** Counterexample to C9 as the claim states it: with a stored retention
    of 20000000 hours the stats read returns no record; it raises an
    overflow error and Redis is not contacted. *)
Lemma get_cleanup_stats_overflow_counterexample :
  CeleryCleanup.get_cleanup_stats pretty
    (world_with_settings {[ "cleanup_age_hours" := PInt 20000000 ]})
    (fresh store_sample)
  = (Raises (OverflowError "date value out of range"), fresh store_sample).
Proof. vm_compute. reflexivity. Qed.

(** ** Queue settings: the built-in queues *)

Section SettingsFacts.
Import CelerySettings.
Variable set_iter : gset string → list string.
Hypothesis set_iter_perm : ∀ X, set_iter X ≡ₚ elements X.

Lemma set_field_lookup_ne {A} k k' (f : A → pyval) v m :
  k ≠ k' → set_field k f v m !! k' = m !! k'.
Proof.
  intros Hne. unfold set_field.
  destruct v as [[a|]|]; by rewrite ?lookup_insert_ne.
Qed.

Lemma model_dump_queues (r : CelerySettingsRequest) :
  model_dump r !! "queues"
  = match queues r with
    | Some (Some qs) => Some (PList (map dump_queue qs))
    | Some None => Some PNone
    | None => None
    end.
Proof.
  unfold model_dump. rewrite !set_field_lookup_ne by discriminate.
  unfold set_field. destruct (queues r) as [[qs|]|];
    by rewrite ?lookup_insert_eq, ?lookup_empty.
Qed.

Lemma queue_names_of_dump (qs : list CeleryQueue) :
  queue_names_of (PList (map dump_queue qs)) = map name qs.
Proof.
  cbn. induction qs as [|q qs IH]; [reflexivity|].
  cbn. by rewrite IH.
Qed.

Lemma stamp_built_in_name (q : CeleryQueue) : name (stamp_built_in q) = name q.
Proof.
  unfold stamp_built_in. case_decide; [reflexivity|].
  by destruct (built_in q).
Qed.

Lemma map_name_stamp (qs : list CeleryQueue) :
  map name (map stamp_built_in qs) = map name qs.
Proof.
  induction qs as [|q qs IH]; [reflexivity|].
  cbn. by rewrite stamp_built_in_name, IH.
Qed.

(** What a persisted update leaves under the key [queues]. *)
Lemma persist_queues sm updates :
  stored (persist sm updates).2 !! "queues"
  = if writable sm
    then match updates !! "queues" with
         | Some v => Some v
         | None => stored sm !! "queues"
         end
    else stored sm !! "queues".
Proof.
  unfold persist, sm_update_celery_settings, sm_get_celery_settings.
  destruct (writable sm); cbn; [|reflexivity].
  rewrite lookup_union. by destruct (updates !! "queues"), (stored sm !! "queues").
Qed.

Lemma persist_not_rejected sm updates d :
  (persist sm updates).1 ≠ Raises (HTTPException 400 d).
Proof.
  unfold persist, sm_update_celery_settings.
  destruct (writable sm); cbn; discriminate.
Qed.

(** C4: an update whose queue list leaves out a built-in queue is refused
    with status 400, the message lists exactly the built-in names that are
    missing, and the stored settings are untouched; an update whose queue
    list holds all four built-in names is not refused on this ground and
    goes on to be merged and persisted; and stored settings that hold the
    four built-in queues still hold them after any update request. *)
Theorem update_celery_settings_keeps_built_ins
    (sm : settings_manager) (request : CelerySettingsRequest) :
  (∀ qs, queues request = Some (Some qs) →
     (∃ b, b ∈ built_in_queue_names ∧ b ∉ map name qs) →
     ∃ ms,
       update_celery_settings set_iter sm request
       = (Raises (HTTPException 400
                    ("Cannot remove built-in queues: "
                     +:+ String.concat ", " ms
                     +:+ ". Built-in queues (default, backup, network, heavy) are required.")),
          sm)
       ∧ NoDup ms
       ∧ ∀ b, b ∈ ms ↔ b ∈ built_in_queue_names ∧ b ∉ map name qs)
  ∧ (∀ qs, queues request = Some (Some qs) →
     (∀ b, b ∈ built_in_queue_names → b ∈ map name qs) →
     update_celery_settings set_iter sm request
     = persist sm (model_dump (with_queues request (map stamp_built_in qs)))
     ∧ ∀ d, (update_celery_settings set_iter sm request).1
            ≠ Raises (HTTPException 400 d))
  ∧ (keeps_built_ins (stored sm) →
     keeps_built_ins (stored (update_celery_settings set_iter sm request).2)).
Proof.
  split; [|split].
  - intros qs Hq (b & Hb & Hnb). unfold update_celery_settings. rewrite Hq.
    set (missing := built_in_queue_names ∖ list_to_set (map name qs)).
    assert (Hmem : ∀ x, x ∈ set_iter missing
                        ↔ x ∈ built_in_queue_names ∧ x ∉ map name qs).
    { intros x. rewrite (set_iter_perm missing), elem_of_elements.
      unfold missing. rewrite elem_of_difference, elem_of_list_to_set. tauto. }
    destruct (decide (missing = ∅)) as [He|Hne].
    + exfalso. assert (b ∈ missing) as Hin; [|rewrite He in Hin; set_solver].
      unfold missing. rewrite elem_of_difference, elem_of_list_to_set. tauto.
    + exists (set_iter missing). split; [reflexivity|]. split; [|exact Hmem].
      rewrite (set_iter_perm missing). apply NoDup_elements.
  - intros qs Hq Hall. unfold update_celery_settings. rewrite Hq.
    destruct (decide (built_in_queue_names ∖ list_to_set (map name qs) = ∅))
      as [He|Hne].
    + split; [reflexivity|]. intros d. apply persist_not_rejected.
    + exfalso. apply Hne. apply set_eq. intros x.
      rewrite elem_of_difference, elem_of_list_to_set.
      split; [intros [H1 H2]; destruct H2; auto|set_solver].
  - intros (v & Hv & Hsub). unfold update_celery_settings.
    destruct (queues request) as [[qs|]|] eqn:Hq.
    + destruct (decide (built_in_queue_names ∖ list_to_set (map name qs) = ∅))
        as [He|Hne]; [|by exists v].
      unfold keeps_built_ins. rewrite persist_queues.
      destruct (writable sm); [|by exists v].
      rewrite model_dump_queues. cbn [queues with_queues].
      eexists. split; [reflexivity|].
      rewrite queue_names_of_dump, map_name_stamp.
      intros x Hx. apply dec_stable. intros Hnx.
      assert (x ∈ built_in_queue_names ∖ list_to_set (map name qs)) as Hin
        by (apply elem_of_difference; split; assumption).
      rewrite He in Hin. set_solver.
    + by exists v.
    + unfold keeps_built_ins. rewrite persist_queues.
      destruct (writable sm); [|by exists v].
      rewrite model_dump_queues, Hq. by exists v.
Qed.

End SettingsFacts.

Lemma update_celery_settings_keeps_built_ins_witness :
  (∃ ms,
     CelerySettings.update_celery_settings elements settings_sample
       (queues_request [ "default"; "network"; "heavy"; "custom1" ])
     = (Raises (HTTPException 400
                  ("Cannot remove built-in queues: "
                   +:+ String.concat ", " ms
                   +:+ ". Built-in queues (default, backup, network, heavy) are required.")),
        settings_sample)
     ∧ NoDup ms
     ∧ ∀ b, b ∈ ms ↔ b ∈ CelerySettings.built_in_queue_names
                      ∧ b ∉ [ "default"; "network"; "heavy"; "custom1" ])
  ∧ (∀ d, (CelerySettings.update_celery_settings elements settings_sample
             (queues_request [ "default"; "backup"; "network"; "heavy" ])).1
          ≠ Raises (HTTPException 400 d))
  ∧ keeps_built_ins
      (CelerySettings.stored
         (CelerySettings.update_celery_settings elements settings_sample
            (queues_request [ "default"; "backup"; "network"; "heavy" ])).2).
Proof.
  split; [|split].
  - apply (proj1 (update_celery_settings_keeps_built_ins elements
                    (λ X, reflexivity _) settings_sample
                    (queues_request [ "default"; "network"; "heavy"; "custom1" ]))
             (map plain_queue [ "default"; "network"; "heavy"; "custom1" ])
             eq_refl).
    exists "backup". split.
    + unfold CelerySettings.built_in_queue_names. set_solver.
    + cbn. set_solver.
  - apply (proj1 (proj2 (update_celery_settings_keeps_built_ins elements
                    (λ X, reflexivity _) settings_sample
                    (queues_request [ "default"; "backup"; "network"; "heavy" ])))
             (map plain_queue [ "default"; "backup"; "network"; "heavy" ])
             eq_refl).
    intros b Hb. unfold CelerySettings.built_in_queue_names in Hb. cbn.
    set_solver.
  - apply (proj2 (proj2 (update_celery_settings_keeps_built_ins elements
                    (λ X, reflexivity _) settings_sample
                    (queues_request [ "default"; "backup"; "network"; "heavy" ])))).
    eexists. split; [vm_compute; reflexivity|].
    unfold CelerySettings.built_in_queue_names. cbn. set_solver.
Defined.

(** The scenario evaluated: leaving out [backup] is refused and names it;
    keeping the four built-in queues and dropping [custom1] is stored. *)
Example update_celery_settings_scenario :
  (CelerySettings.update_celery_settings elements settings_sample
     (queues_request [ "default"; "network"; "heavy"; "custom1" ])).1
  = Raises (HTTPException 400
      "Cannot remove built-in queues: backup. Built-in queues (default, backup, network, heavy) are required.")
  ∧ queue_names_of
      (default PNone
         (CelerySettings.stored
            (CelerySettings.update_celery_settings elements settings_sample
               (queues_request [ "default"; "backup"; "network"; "heavy" ])).2
          !! "queues"))
    = [ "default"; "backup"; "network"; "heavy" ].
Proof. split; vm_compute; reflexivity. Qed.

(** * Further properties *)

(** ** Template table: keys, round trips, frames *)

Section RepositoryFacts.
Import Templates Repository.

Lemma find_id_app (i : Z) (l1 l2 : list JobTemplate) :
  List.find (λ t, Z.eqb (id t) i) (l1 ++ l2)
  = match List.find (λ t, Z.eqb (id t) i) l1 with
    | Some t => Some t
    | None => List.find (λ t, Z.eqb (id t) i) l2
    end.
Proof.
  induction l1 as [|t l1 IH]; [reflexivity|].
  cbn. destruct (Z.eqb (id t) i); [reflexivity|exact IH].
Qed.

Lemma find_id_none (i : Z) (l : list JobTemplate) :
  i ∉ map id l → List.find (λ t, Z.eqb (id t) i) l = None.
Proof.
  induction l as [|t l IH]; [reflexivity|].
  cbn. intros Hn. apply not_elem_of_cons in Hn as [Hne Hn].
  destruct (Z.eqb_spec (id t) i); [congruence|auto].
Qed.

Lemma map_id_update_first i u l : map id (update_first i u l) = map id l.
Proof.
  induction l as [|t l IH]; [reflexivity|].
  cbn. destruct (Z.eqb (id t) i); cbn; [reflexivity|by rewrite IH].
Qed.

Lemma update_first_lt i u l bound :
  Forall (λ t, id t < bound) l → Forall (λ t, id t < bound) (update_first i u l).
Proof.
  induction 1 as [|t l Ht Hl IH]; [constructor|].
  cbn. destruct (Z.eqb (id t) i); constructor; auto.
Qed.

Lemma remove_first_sub i l t : t ∈ remove_first i l → t ∈ l.
Proof.
  induction l as [|t0 l IH]; [intros H; inversion H|].
  cbn. destruct (Z.eqb (id t0) i).
  - intros H. by right.
  - intros H. apply elem_of_cons in H as [->|H]; [by left|right; auto].
Qed.

Lemma remove_first_ids i l j :
  j ∈ map id (remove_first i l) → j ∈ map id l.
Proof.
  rewrite !list_elem_of_fmap. intros (t & -> & Ht).
  exists t. split; [reflexivity|by eapply remove_first_sub].
Qed.

Lemma remove_first_nodup i l :
  NoDup (map id l) → NoDup (map id (remove_first i l)).
Proof.
  induction l as [|t l IH]; [intros; constructor|].
  cbn. intros Hnd. apply NoDup_cons in Hnd as [Hnot Hnd].
  destruct (Z.eqb (id t) i); [exact Hnd|].
  cbn. apply NoDup_cons. split; [|auto].
  intros Hin. apply Hnot. by eapply remove_first_ids.
Qed.

Lemma remove_first_gone i l :
  NoDup (map id l) → i ∉ map id (remove_first i l).
Proof.
  induction l as [|t l IH]; [intros _ H; inversion H|].
  cbn. intros Hnd. apply NoDup_cons in Hnd as [Hnot Hnd].
  destruct (Z.eqb_spec (id t) i) as [<-|Hne]; [exact Hnot|].
  cbn. apply not_elem_of_cons. split; [congruence|auto].
Qed.

Lemma find_remove_first_ne i j l :
  i ≠ j →
  List.find (λ t, Z.eqb (id t) j) (remove_first i l)
  = List.find (λ t, Z.eqb (id t) j) l.
Proof.
  intros Hne. induction l as [|t l IH]; [reflexivity|].
  cbn. destruct (Z.eqb_spec (id t) i) as [Hi|Hi].
  - destruct (Z.eqb_spec (id t) j); [congruence|reflexivity].
  - cbn. destruct (Z.eqb (id t) j); [reflexivity|exact IH].
Qed.

Lemma find_update_first_eq i u l :
  List.find (λ t, Z.eqb (id t) i) (update_first i u l)
  = apply_kwargs u <$> List.find (λ t, Z.eqb (id t) i) l.
Proof.
  induction l as [|t l IH]; [reflexivity|].
  cbn. destruct (Z.eqb (id t) i) eqn:E; cbn.
  - by rewrite E.
  - by rewrite E.
Qed.

Lemma find_update_first_ne i j u l :
  i ≠ j →
  List.find (λ t, Z.eqb (id t) j) (update_first i u l)
  = List.find (λ t, Z.eqb (id t) j) l.
Proof.
  intros Hne. induction l as [|t l IH]; [reflexivity|].
  cbn. destruct (Z.eqb_spec (id t) i) as [Hi|Hi]; cbn.
  - destruct (Z.eqb_spec (id t) j); [congruence|reflexivity].
  - destruct (Z.eqb (id t) j); [reflexivity|exact IH].
Qed.

Lemma remove_first_length i l t :
  List.find (λ t, Z.eqb (id t) i) l = Some t →
  S (length (remove_first i l)) = length l.
Proof.
  induction l as [|t0 l IH]; [discriminate|].
  cbn. destruct (Z.eqb (id t0) i); [reflexivity|].
  intros H. cbn. by rewrite IH.
Qed.

Lemma ids_wf_fresh d : ids_wf d → next_id d ∉ map id (rows d).
Proof.
  intros [_ Hlt] Hin. apply list_elem_of_fmap in Hin as (t & Heq & Ht).
  rewrite Forall_forall in Hlt. specialize (Hlt t Ht). lia.
Qed.

Lemma update_rows d i u :
  rows (update d i u).2 = rows d ∨ rows (update d i u).2 = update_first i u (rows d).
Proof. unfold update. destruct (get_by_id d i); cbn; auto. Qed.

Lemma update_next_id d i u : next_id (update d i u).2 = next_id d.
Proof. unfold update. by destruct (get_by_id d i). Qed.

Lemma ids_wf_update d i u : ids_wf d → ids_wf (update d i u).2.
Proof.
  intros [Hnd Hlt]. unfold ids_wf. rewrite update_next_id.
  destruct (update_rows d i u) as [->| ->]; [done|].
  rewrite map_id_update_first. split; [exact Hnd|by apply update_first_lt].
Qed.

(** X1: unique primary keys below the sequence value are an invariant of
    the three writing operations of the manager: create, update and delete
    each leave a well-keyed table well-keyed, whether they succeed, fail or
    find nothing. *)
Theorem manager_keeps_ids_wf (d : db) :
  ids_wf d →
  (∀ n jt uid by_ descr g,
     ids_wf (create_job_template d n jt uid by_ descr g).2)
  ∧ (∀ i n descr g uid, ids_wf (update_job_template d i n descr g uid).2)
  ∧ (∀ i, ids_wf (delete_job_template d i).2).
Proof.
  intros Hwf. split; [|split].
  - intros n jt uid by_ descr g. unfold create_job_template.
    destruct (check_name_exists _ _ _ _); [exact Hwf|].
    cbn. destruct Hwf as [Hnd Hlt]. split; cbn.
    + rewrite map_app. cbn. apply NoDup_app. split; [exact Hnd|].
      split; [|apply NoDup_singleton].
      intros x Hx Hx'. apply list_elem_of_singleton in Hx'. subst x.
      by apply (ids_wf_fresh d (conj Hnd Hlt)).
    + apply Forall_app. split.
      * eapply Forall_impl; [exact Hlt|]. cbn. intros; lia.
      * constructor; [cbn; lia|constructor].
  - intros i n descr g uid. unfold update_job_template, apply_update.
    assert (Hup : ∀ u, ids_wf
              (let '(r, d') := update d i u in
               match r with
               | Some template => (Returns (Some (_model_to_dict template)), d')
               | None => (@Returns (option pydict) None, d')
               end).2).
    { intros u. pose proof (ids_wf_update d i u Hwf) as H.
      destruct (update d i u) as [[t|] d']; exact H. }
    destruct n as [n'|].
    + destruct (check_name_exists _ _ _ _); [exact Hwf|].
      destruct (kwargs_empty _); [exact Hwf|]. apply Hup.
    + destruct (kwargs_empty _); [exact Hwf|]. apply Hup.
  - intros i. unfold delete_job_template, delete.
    destruct (get_by_id d i) as [t|]; [|exact Hwf].
    cbn. destruct Hwf as [Hnd Hlt]. split; cbn.
    + by apply remove_first_nodup.
    + rewrite Forall_forall in *. intros t' Ht'.
      apply Hlt. by eapply remove_first_sub.
Qed.

Lemma db_three_wf : ids_wf db_three.
Proof.
  split; cbn.
  - repeat (apply NoDup_cons; split; [set_solver|]). apply NoDup_nil_2.
  - repeat constructor.
Qed.

Lemma manager_keeps_ids_wf_witness :
  ids_wf (create_job_template db_three "W" "example" 5 "bob" None false).2
  ∧ ids_wf (update_job_template db_three 2 (Some "Q") None None (Some 5)).2
  ∧ ids_wf (delete_job_template db_three 2).2.
Proof.
  destruct (manager_keeps_ids_wf db_three db_three_wf) as (Hc & Hu & Hd).
  split; [apply Hc|split; [apply Hu|apply Hd]].
Defined.

End RepositoryFacts.

Section RoundTripFacts.
Import Templates Repository.

(** X2: on a well-keyed table a successful create can be read back: the
    template it returns carries the key taken from the sequence, a get by
    that key returns the same template, and a get by any other key
    returns what it returned before the create. *)
Theorem create_then_get (d d' : db) (n jt by_ : string) (uid : Z)
    (descr : option string) (g : bool) (r : pydict) :
  ids_wf d →
  create_job_template d n jt uid by_ descr g = (Returns r, d') →
  dict_get r "id" = Some (PInt (next_id d))
  ∧ get_job_template d' (next_id d) = Some r
  ∧ ∀ j, j ≠ next_id d → get_job_template d' j = get_job_template d j.
Proof.
  intros Hwf. unfold create_job_template.
  destruct (check_name_exists _ _ _ _); [discriminate|].
  cbn. intros [= <- <-]. split; [reflexivity|].
  unfold get_job_template, get_by_id. cbn [rows]. split.
  - rewrite find_id_app, (find_id_none _ _ (ids_wf_fresh d Hwf)).
    cbn. by rewrite Z.eqb_refl.
  - intros j Hj. rewrite find_id_app.
    destruct (List.find _ (rows d)); [reflexivity|].
    cbn. destruct (Z.eqb_spec (next_id d) j); [congruence|reflexivity].
Qed.

Lemma create_then_get_witness :
  ∃ r d',
    create_job_template db_three "W" "example" 5 "bob" None false = (Returns r, d')
    ∧ dict_get r "id" = Some (PInt 5)
    ∧ get_job_template d' 5 = Some r.
Proof.
  do 2 eexists. split; [reflexivity|].
  destruct (create_then_get db_three _ "W" "example" "bob" 5 None false _
              db_three_wf eq_refl) as (Hid & Hget & _).
  split; [exact Hid|exact Hget].
Defined.

(** X3: an update that finds its template can be read back and touches no
    other template: a get by the same key returns the template the update
    returned, a get by any other key returns what it returned before, and
    the number of templates is unchanged. *)
Theorem update_then_get (d d' : db) (i : Z) (n descr : option string)
    (g : option bool) (uid : option Z) (r : pydict) :
  update_job_template d i n descr g uid = (Returns (Some r), d') →
  get_job_template d' i = Some r
  ∧ (∀ j, j ≠ i → get_job_template d' j = get_job_template d j)
  ∧ count d' = count d.
Proof.
  assert (Hbody : apply_update d i n descr g uid = (Returns (Some r), d') →
                  get_job_template d' i = Some r
                  ∧ (∀ j, j ≠ i → get_job_template d' j = get_job_template d j)
                  ∧ count d' = count d).
  { unfold apply_update. destruct (kwargs_empty _).
    - intros [= Hr <-]. auto.
    - unfold update, get_job_template, get_by_id, count.
      destruct (List.find _ (rows d)) as [t|] eqn:E; [|discriminate].
      intros [= <- <-]. cbn [rows]. split; [|split].
      + by rewrite find_update_first_eq, E.
      + intros j Hj. by rewrite find_update_first_ne.
      + f_equal. rewrite <- (length_map id (update_first _ _ _)).
        by rewrite map_id_update_first, length_map. }
  unfold update_job_template. destruct n as [n'|]; [|exact Hbody].
  destruct (check_name_exists _ _ _ _); [discriminate|exact Hbody].
Qed.

Lemma update_then_get_witness :
  ∃ r d',
    update_job_template db_three 2 (Some "Q") (Some "renamed") None (Some 5)
    = (Returns (Some r), d')
    ∧ get_job_template d' 2 = Some r
    ∧ get_job_template d' 1 = get_job_template db_three 1
    ∧ count d' = 3.
Proof.
  do 2 eexists. split; [reflexivity|].
  destruct (update_then_get db_three _ 2 (Some "Q") (Some "renamed") None
              (Some 5) _ eq_refl) as (Hget & Hother & Hcount).
  split; [exact Hget|]. split; [apply Hother; discriminate|exact Hcount].
Defined.

(** X4: what an accepted update stores.  Name, description and the global
    flag are replaced when supplied and kept otherwise, so a description
    can be changed but never cleared; the owner is cleared when the
    template is made global, set when it is made private with an owner id
    supplied, and kept in every other case, so making a global template
    private without an owner id leaves it private and ownerless.  Key, job
    type and creator are never among the fields written. *)
Theorem update_stores (d : db) (i : Z) (n descr : option string)
    (g : option bool) (uid : option Z) (t : JobTemplate) :
  get_by_id d i = Some t →
  fst (update_job_template d i n descr g uid)
  ≠ Raises (duplicate_name (default "" n)) →
  ∃ t', get_by_id (update_job_template d i n descr g uid).2 i = Some t'
    ∧ name t' = default (name t) n
    ∧ description t' = match descr with Some s => Some s | None => description t end
    ∧ is_global t' = default (is_global t) g
    ∧ user_id t' = match g, uid with
                   | Some true, _ => None
                   | Some false, Some u => Some u
                   | _, _ => user_id t
                   end
    ∧ id t' = id t ∧ job_type t' = job_type t ∧ created_by t' = created_by t.
Proof.
  intros Ht Hok.
  assert (Hbody : ∃ t', get_by_id (apply_update d i n descr g uid).2 i = Some t'
    ∧ name t' = default (name t) n
    ∧ description t' = match descr with Some s => Some s | None => description t end
    ∧ is_global t' = default (is_global t) g
    ∧ user_id t' = match g, uid with
                   | Some true, _ => None
                   | Some false, Some u => Some u
                   | _, _ => user_id t
                   end
    ∧ id t' = id t ∧ job_type t' = job_type t ∧ created_by t' = created_by t).
  { unfold apply_update. destruct (kwargs_empty _) eqn:Hk.
    - exists t. cbn. split; [exact Ht|].
      unfold kwargs_empty, update_data in Hk. cbn in Hk.
      destruct n, descr, g as [[|]|], uid; try discriminate; cbn; auto 10.
    - unfold update. rewrite Ht. cbn.
      exists (apply_kwargs (update_data n descr g uid) t).
      split.
      + unfold get_by_id in *. cbn [rows]. by rewrite find_update_first_eq, Ht.
      + cbn. destruct n, descr, g as [[|]|], uid; cbn; auto 10. }
  unfold update_job_template in *. destruct n as [n'|]; [|exact Hbody].
  destruct (check_name_exists _ _ _ _); [|exact Hbody].
  cbn in Hok. congruence.
Qed.

Lemma update_stores_witness :
  ∃ t', get_by_id (update_job_template db_three 1 None None (Some false) None).2 1
        = Some t'
        ∧ is_global t' = false ∧ user_id t' = None
        ∧ description t' = Some "first".
Proof.
  destruct (update_stores db_three 1 None None (Some false) None _ eq_refl)
    as (t' & Hget & _ & Hd & Hg & Hu & _).
  { cbn. discriminate. }
  exists t'. split; [exact Hget|]. split; [exact Hg|]. split; [exact Hu|exact Hd].
Defined.

(** X5: an update of a key that is not in the table writes nothing; it
    answers not-found, unless a name was supplied that the duplicate check
    finds, in which case the duplicate-name error is raised first. *)
Theorem update_unknown_id (d : db) (i : Z) (n descr : option string)
    (g : option bool) (uid : option Z) :
  get_by_id d i = None →
  update_job_template d i n descr g uid
  = match n with
    | Some n' =>
        if check_name_exists d n' uid (Some i)
        then (Raises (duplicate_name n'), d)
        else (Returns None, d)
    | None => (Returns None, d)
    end.
Proof.
  intros Hnone.
  assert (Hbody : apply_update d i n descr g uid = (Returns None, d)).
  { unfold apply_update, get_job_template, update. rewrite Hnone.
    by destruct (kwargs_empty _). }
  unfold update_job_template. destruct n as [n'|]; [|exact Hbody].
  destruct (check_name_exists _ _ _ _); [reflexivity|exact Hbody].
Qed.

Lemma update_unknown_id_witness :
  update_job_template db_three 3 (Some "X") None None (Some 5)
  = (Returns None, db_three)
  ∧ update_job_template db_three 3 (Some "X") None None None
    = (Raises (duplicate_name "X"), db_three).
Proof.
  split.
  - exact (update_unknown_id db_three 3 (Some "X") None None (Some 5) eq_refl).
  - exact (update_unknown_id db_three 3 (Some "X") None None None eq_refl).
Defined.

(** X6: on a well-keyed table, deleting a stored template answers true,
    removes exactly that template (a get by its key then finds nothing,
    every other key reads as before, one template fewer is counted), and a
    second delete of the same key answers false and changes nothing. *)
Theorem delete_then_get (d : db) (i : Z) (t : JobTemplate) :
  ids_wf d →
  get_by_id d i = Some t →
  ∃ d',
    delete_job_template d i = (true, d')
    ∧ get_job_template d' i = None
    ∧ (∀ j, j ≠ i → get_job_template d' j = get_job_template d j)
    ∧ count d' + 1 = count d
    ∧ delete_job_template d' i = (false, d').
Proof.
  intros [Hnd _] Ht. unfold delete_job_template, delete. rewrite Ht. cbn.
  eexists. split; [reflexivity|].
  assert (Hgone : get_by_id
            {| rows := remove_first i (rows d); next_id := next_id d;
               clock := clock d |} i = None).
  { unfold get_by_id. cbn. apply find_id_none. by apply remove_first_gone. }
  split; [|split; [|split]].
  - unfold get_job_template. by rewrite Hgone.
  - intros j Hj. unfold get_job_template, get_by_id. cbn [rows].
    by rewrite find_remove_first_ne.
  - unfold count. cbn [rows]. unfold get_by_id in Ht.
    rewrite <- (remove_first_length i (rows d) t Ht). lia.
  - by rewrite Hgone.
Qed.

Lemma delete_then_get_witness :
  ∃ d',
    delete_job_template db_three 2 = (true, d')
    ∧ get_job_template d' 2 = None
    ∧ get_job_template d' 4 = get_job_template db_three 4
    ∧ delete_job_template d' 2 = (false, d').
Proof.
  destruct (delete_then_get db_three 2 _ db_three_wf eq_refl)
    as (d' & Hdel & Hgone & Hother & _ & Hagain).
  exists d'. split; [exact Hdel|]. split; [exact Hgone|].
  split; [apply Hother; discriminate|exact Hagain].
Defined.

(** X7: the two ways the repository has of asking whether a key is stored
    agree: [exists], which counts the matching rows, answers true exactly
    when [get_by_id], which takes the first one, finds a row. *)
Theorem exists_iff_get_by_id (d : db) (i : Z) :
  exists_ d i = true ↔ is_Some (get_by_id d i).
Proof.
  unfold exists_, get_by_id. induction (rows d) as [|t l IH]; cbn.
  - split; [discriminate|intros [? ?]; discriminate].
  - destruct (Z.eqb (id t) i); cbn.
    + split; [eauto|intros _]. apply Z.ltb_lt. lia.
    + exact IH.
Qed.

End RoundTripFacts.

(** ** Dispatcher: shape of every result *)

Section DispatchShapeFacts.
Import Dispatcher.

(** X8: every dispatch returns a mapping with a boolean [success] field,
    and never raises.  The field is true exactly for the registered type
    ["example"]; then the mapping echoes the schedule and job-run ids and
    its [job_parameters] and [target_devices] are a dict and a list even
    when the caller passed [None]; otherwise it carries the error text
    naming the job type. *)
Theorem execute_job_type_shape (job_type : string) (a : job_args) :
  ∃ r b,
    execute_job_type job_type a = Returns r
    ∧ dict_get r "success" = Some (PBool b)
    ∧ (b = true ↔ job_type = "example")
    ∧ (b = true →
       dict_get r "schedule_id" = Some (opt_int (schedule_id a))
       ∧ dict_get r "job_run_id" = Some (opt_int (job_run_id a))
       ∧ (∃ p, dict_get r "job_parameters" = Some (PDict p)
               ∧ (job_parameters a = None → p = []))
       ∧ (∃ l, dict_get r "target_devices" = Some (PList l)
               ∧ (target_devices a = None → l = [])))
    ∧ (b = false →
       dict_get r "error" = Some (PStr ("Unknown job type: " +:+ job_type))).
Proof.
  pose proof (job_executors_lookup job_type) as Hl.
  unfold execute_job_type, executor in *. rewrite Hl.
  destruct (decide (job_type = "example")) as [->|Hne].
  - eexists _, true. split; [reflexivity|]. split; [reflexivity|].
    split; [done|]. split; [|discriminate].
    intros _. cbn. split; [reflexivity|]. split; [reflexivity|].
    split; eexists; (split; [reflexivity|by intros ->]).
  - eexists _, false. split; [reflexivity|]. split; [reflexivity|].
    split; [split; [discriminate|contradiction]|].
    split; [discriminate|reflexivity].
Qed.

End DispatchShapeFacts.

(** ** Queue control plane: purging one queue *)

Section PurgeQueueFacts.
Import CeleryStatus QueueAdmin.
Variable broker : Type.
Variable acquire : broker → option exn.
Variable purge : Queue → broker → outcome (option Z) * broker.

Lemma assoc_get_none {A} (d : list (string * A)) (k : string) :
  assoc_get d k = None ↔ k ∉ map fst d.
Proof.
  induction d as [|[k' v] d IH]; cbn.
  - split; [intros _ H; inversion H|reflexivity].
  - destruct (String.eqb_spec k' k) as [->|Hne].
    + split; [discriminate|]. intros H. exfalso. apply H. by left.
    + rewrite IH, not_elem_of_cons. naive_solver.
Qed.

(** X9: purging a queue that is not configured is refused with status 404
    naming the queue, before a connection is asked for: the broker is left
    as it was whether or not it can be reached.  For a configured queue a
    broker that cannot be reached gives status 500 and again no change. *)
Theorem purge_queue_refusals
    (conf_task_queues : option (list (string * pydict)))
    (queue_name : string) (b : broker) :
  (queue_name ∉ map fst (default [] conf_task_queues) →
     purge_queue broker acquire purge conf_task_queues queue_name b
     = (Raises (HTTPException 404 ("Queue '" +:+ queue_name +:+ "' not found")),
        b))
  ∧ (queue_name ∈ map fst (default [] conf_task_queues) →
     ∀ msg, acquire b = Some (BrokerError msg) →
       purge_queue broker acquire purge conf_task_queues queue_name b
       = (Raises (HTTPException 500 ("Failed to purge queue: " +:+ msg)), b)).
Proof.
  unfold purge_queue. split.
  - intros Hnot. apply assoc_get_none in Hnot. by rewrite Hnot.
  - intros Hin msg He.
    destruct (assoc_get _ queue_name) as [cfg|] eqn:E.
    + by rewrite He.
    + apply assoc_get_none in E. contradiction.
Qed.

(** X10: a single purge and the bulk purge treat the broker's answer for a
    queue differently.  When the purge of a configured queue returns, both
    report the same count and leave the broker in the same state.  When it
    raises, the single purge fails with status 500 carrying the error
    text, while the bulk purge over that one queue still answers with a
    success envelope, total 0 and the error recorded in the queue's
    entry. *)
Theorem purge_queue_vs_purge_all (queue_name : string) (queue_config : pydict)
    (b : broker) :
  acquire b = None →
  (∀ c b', purge (make_queue queue_name queue_config) b = (Returns c, b') →
     (∃ msg,
        purge_queue broker acquire purge
          (Some [(queue_name, queue_config)]) queue_name b
        = (Returns [ ("success", PBool true); ("queue", PStr queue_name);
                     ("purged_tasks", PInt (or_zero c)); ("message", PStr msg) ],
           b'))
     ∧ purge_all_queues broker acquire purge
         (Some [(queue_name, queue_config)]) b
       = (Returns (purge_all_response (or_zero c)
                     [ [ ("queue", PStr queue_name);
                         ("purged_tasks", PInt (or_zero c)) ] ]),
          b'))
  ∧ (∀ msg b', purge (make_queue queue_name queue_config) b
               = (Raises (BrokerError msg), b') →
     purge_queue broker acquire purge
       (Some [(queue_name, queue_config)]) queue_name b
     = (Raises (HTTPException 500 ("Failed to purge queue: " +:+ msg)), b')
     ∧ purge_all_queues broker acquire purge
         (Some [(queue_name, queue_config)]) b
       = (Returns (purge_all_response 0
                     [ [ ("queue", PStr queue_name); ("purged_tasks", PInt 0);
                         ("error", PStr msg) ] ]),
          b')).
Proof.
  intros Hacq. unfold purge_queue, purge_all_queues. cbn.
  rewrite String.eqb_refl, Hacq. unfold CeleryStatus.purge_one. split.
  - intros c b' ->. split; [eexists; reflexivity|reflexivity].
  - intros msg b' ->. split; reflexivity.
Qed.

End PurgeQueueFacts.

Lemma purge_queue_refusals_witness :
  QueueAdmin.purge_queue list_broker lb_acquire lb_purge
    (Some three_queues) "heavy" broker_sample
  = (Raises (HTTPException 404 "Queue 'heavy' not found"), broker_sample)
  ∧ QueueAdmin.purge_queue list_broker lb_acquire lb_purge
      (Some three_queues) "network"
      {| lb_connected := false; lb_depth := ∅; lb_broken := ∅ |}
    = (Raises (HTTPException 500 "Failed to purge queue: Connection refused"),
       {| lb_connected := false; lb_depth := ∅; lb_broken := ∅ |}).
Proof.
  split.
  - apply (proj1 (purge_queue_refusals list_broker lb_acquire lb_purge
                    (Some three_queues) "heavy" broker_sample)).
    cbn. set_solver.
  - apply (proj2 (purge_queue_refusals list_broker lb_acquire lb_purge
                    (Some three_queues) "network"
                    {| lb_connected := false; lb_depth := ∅; lb_broken := ∅ |})).
    + cbn. set_solver.
    + reflexivity.
Defined.

Lemma purge_queue_vs_purge_all_witness :
  (∃ msg b',
     QueueAdmin.purge_queue list_broker lb_acquire lb_purge
       (Some [("default", [])]) "default" broker_sample
     = (Returns [ ("success", PBool true); ("queue", PStr "default");
                  ("purged_tasks", PInt 3); ("message", PStr msg) ],
        b'))
  ∧ (∃ b',
       QueueAdmin.purge_queue list_broker lb_acquire lb_purge
         (Some [("backup", [])]) "backup" broker_sample
       = (Raises (HTTPException 500 "Failed to purge queue: channel closed"), b')).
Proof.
  split.
  - destruct (proj1 (purge_queue_vs_purge_all list_broker lb_acquire lb_purge
                       "default" [] broker_sample eq_refl)
                (Some 3) _ eq_refl) as [(msg & Hq) _].
    eexists msg, _. exact Hq.
  - destruct (proj2 (purge_queue_vs_purge_all list_broker lb_acquire lb_purge
                       "backup" [] broker_sample eq_refl)
                "channel closed" _ eq_refl) as [Hq _].
    eexists. exact Hq.
Defined.

(** ** Queue control plane: listing the queues *)

Section ListQueuesFacts.
Import CeleryStatus QueueAdmin.
Variable from_url_error : option exn.
Variable llen : string → outcome Z.
Variable close_error : option exn.

Local Abbreviation queues_loop := (queues_loop llen).
Local Abbreviation list_queues := (list_queues from_url_error llen close_error).

Lemma queues_loop_acc aq at_ routes qs : ∀ acc,
  queues_loop aq at_ routes qs acc
  = match queues_loop aq at_ routes qs [] with
    | Returns es => Returns (acc ++ es)
    | Raises e => Raises e
    end.
Proof.
  induction qs as [|[q cfg] qs IH]; intros acc; cbn.
  - by rewrite app_nil_r.
  - destruct (llen q) as [n|e]; [|reflexivity].
    rewrite (IH (acc ++ _)), (IH [_]).
    destruct (queues_loop aq at_ routes qs []); [|reflexivity].
    by rewrite <- app_assoc.
Qed.

Lemma queues_loop_ok aq at_ routes qs :
  (∀ q, q ∈ map fst qs → is_returns (llen q) = true) →
  queues_loop aq at_ routes qs []
  = Returns (map (λ qc, queue_entry aq at_ routes qc.1 qc.2 (pending_of llen qc.1)) qs).
Proof.
  induction qs as [|[q cfg] qs IH]; intros Hall; [reflexivity|].
  cbn. assert (Hq : is_returns (llen q) = true) by (apply Hall; cbn; by left).
  unfold pending_of at 1. destruct (llen q) as [n|e]; [|discriminate].
  rewrite queues_loop_acc, IH; [reflexivity|].
  intros q' Hq'. apply Hall. cbn. by right.
Qed.

Lemma queues_loop_fail aq at_ routes qs :
  (∃ q, q ∈ map fst qs ∧ is_returns (llen q) = false) →
  ∃ e, queues_loop aq at_ routes qs [] = Raises e.
Proof.
  induction qs as [|[q cfg] qs IH]; intros (q' & Hin & Hq').
  - inversion Hin.
  - cbn. destruct (llen q) as [n|e] eqn:E; [|eauto].
    rewrite queues_loop_acc.
    destruct IH as [e He].
    + cbn in Hin. apply elem_of_cons in Hin as [->|Hin]; [|eauto].
      rewrite E in Hq'. discriminate.
    + rewrite He. eauto.
Qed.

(** X11: when the worker introspection has answered, Redis can be reached
    and every configured queue's depth can be read, the listing succeeds
    with exactly one entry per configured queue, in configuration order,
    each carrying the depth read for it, and [total_queues] is the number
    of configured queues, whether or not any worker consumes them. *)
Theorem list_queues_listing aq at_
    (conf_task_queues conf_task_routes : option (list (string * pydict))) :
  from_url_error = None →
  close_error = None →
  (∀ q, q ∈ map fst (default [] conf_task_queues) → is_returns (llen q) = true) →
  ∃ entries,
    list_queues (Returns aq) (Returns at_) conf_task_queues conf_task_routes
    = Returns [ ("success", PBool true);
                ("queues", PList (map PDict entries));
                ("total_queues",
                 PInt (Z.of_nat (length (default [] conf_task_queues)))) ]
    ∧ map (λ e, dict_get e "name") entries
      = map (λ qc, Some (PStr qc.1)) (default [] conf_task_queues)
    ∧ map (λ e, dict_get e "pending_tasks") entries
      = map (λ qc, Some (PInt (pending_of llen qc.1))) (default [] conf_task_queues).
Proof.
  intros Hu Hc Hall. unfold QueueAdmin.list_queues.
  rewrite Hu, Hc, (queues_loop_ok _ _ _ _ Hall).
  eexists. split; [by rewrite length_map|].
  split; rewrite map_map; reflexivity.
Qed.

(** X12: the listing is all or nothing.  When the worker introspection has
    answered but the Redis client cannot be built, the depth of some
    configured queue cannot be read, or the client cannot be closed, the
    handler does not raise and does not return the queues it could read:
    it returns the failure envelope with an empty list and a total of 0. *)
Theorem list_queues_all_or_nothing aq at_
    (conf_task_queues conf_task_routes : option (list (string * pydict))) :
  from_url_error ≠ None
  ∨ close_error ≠ None
  ∨ (∃ q, q ∈ map fst (default [] conf_task_queues) ∧ is_returns (llen q) = false) →
  ∃ e,
    list_queues (Returns aq) (Returns at_) conf_task_queues conf_task_routes
    = Returns [ ("success", PBool false); ("error", PStr (exn_str e));
                ("queues", PList []); ("total_queues", PInt 0) ].
Proof.
  intros H. unfold QueueAdmin.list_queues.
  destruct from_url_error as [e|]; [by exists e|].
  destruct (QueueAdmin.queues_loop llen aq at_ _ _ []) as [es|e] eqn:E;
    [|by exists e].
  destruct close_error as [e|]; [by exists e|].
  destruct H as [H|[H|H]]; [done|done|].
  apply (queues_loop_fail aq at_ (default [] conf_task_routes)) in H as [e He].
  rewrite He in E. discriminate.
Qed.

End ListQueuesFacts.

Section QueueEntryFacts.
Import CeleryStatus QueueAdmin.

Lemma active_fold_acc (wc : list string) (ws : list (string * list pyval)) :
  ∀ acc,
    fold_left
      (λ active_count w,
         if mem_string (fst w) wc
         then active_count + Z.of_nat (length (snd w))
         else active_count) ws acc
    = acc + active_count_of (Some ws) wc.
Proof.
  unfold active_count_of.
  induction ws as [|w ws IH]; intros acc; cbn; [lia|].
  rewrite IH. rewrite (IH (if mem_string w.1 wc then _ else _)).
  destruct (mem_string w.1 wc); lia.
Qed.

Lemma active_count_cons wc w ws :
  active_count_of (Some (w :: ws)) wc
  = (if mem_string w.1 wc then Z.of_nat (length w.2) else 0)
    + active_count_of (Some ws) wc.
Proof.
  unfold active_count_of at 1. cbn [fold_left]. rewrite active_fold_acc.
  destruct (mem_string w.1 wc); lia.
Qed.

Lemma active_count_bounds at_ wc :
  0 ≤ active_count_of at_ wc ≤ all_tasks at_.
Proof.
  destruct at_ as [ws|]; [|cbn; lia].
  induction ws as [|w ws IH]; [cbn; lia|].
  rewrite active_count_cons. cbn [all_tasks fold_right] in *.
  destruct (mem_string w.1 wc); lia.
Qed.

Lemma active_count_nil at_ : active_count_of at_ [] = 0.
Proof.
  destruct at_ as [ws|]; [|reflexivity].
  induction ws as [|w ws IH]; [reflexivity|].
  rewrite active_count_cons, IH. reflexivity.
Qed.

Lemma workers_consuming_elem ws q w :
  w ∈ workers_consuming_of (Some ws) q
  ↔ ∃ subs qi, (w, subs) ∈ ws ∧ qi ∈ subs ∧ field_is qi "name" q = true.
Proof.
  unfold workers_consuming_of. rewrite list_elem_of_In, in_flat_map. split.
  - intros ([w' subs] & Hin & Hw). apply in_flat_map in Hw as (qi & Hqi & Hf).
    cbn in *. destruct (field_is qi "name" q) eqn:E; [|inversion Hf].
    destruct Hf as [<-|[]]. exists subs, qi.
    rewrite !list_elem_of_In. auto.
  - intros (subs & qi & Hin & Hqi & Hf). exists (w, subs).
    rewrite list_elem_of_In in Hin. split; [exact Hin|].
    apply in_flat_map. exists qi. rewrite list_elem_of_In in Hqi.
    split; [exact Hqi|]. rewrite Hf. by left.
Qed.

(** X13: the activity figures of a queue entry.  The workers listed as
    consuming a queue are exactly the workers with a subscription of that
    name; the active count is never negative and never exceeds the number
    of tasks active on all workers together; and a queue that no worker
    subscribes to is listed with no worker, worker count 0 and active
    count 0. *)
Theorem queue_entry_activity
    (aq : option (list (string * list pydict)))
    (at_ : option (list (string * list pyval)))
    (routes : list (string * pydict)) (q : string) (cfg : pydict) (pending : Z) :
  ∃ n ws,
    dict_get (queue_entry aq at_ routes q cfg pending) "active_tasks"
    = Some (PInt n)
    ∧ dict_get (queue_entry aq at_ routes q cfg pending) "workers_consuming"
      = Some (PList (map PStr ws))
    ∧ dict_get (queue_entry aq at_ routes q cfg pending) "worker_count"
      = Some (PInt (Z.of_nat (length ws)))
    ∧ 0 ≤ n ≤ all_tasks at_
    ∧ (∀ w, w ∈ ws
            ↔ ∃ l subs qi, aq = Some l ∧ (w, subs) ∈ l ∧ qi ∈ subs
                           ∧ field_is qi "name" q = true)
    ∧ (ws = [] → n = 0).
Proof.
  exists (active_count_of at_ (workers_consuming_of aq q)),
         (workers_consuming_of aq q).
  split; [reflexivity|]. split; [reflexivity|]. split; [reflexivity|].
  split; [apply active_count_bounds|]. split.
  - intros w. destruct aq as [l|].
    + rewrite workers_consuming_elem. split.
      * intros (subs & qi & H). exists l, subs, qi. tauto.
      * intros (l' & subs & qi & [= <-] & H). eauto.
    + cbn. split; [intros H; inversion H|intros (l & ? & ? & [=] & _)].
  - intros ->. apply active_count_nil.
Qed.

End QueueEntryFacts.

Lemma list_queues_listing_witness :
  ∃ entries,
    QueueAdmin.list_queues None (llen_sample []) None
      (Returns subscriptions_sample) (Returns tasks_sample)
      (Some three_queues) None
    = Returns [ ("success", PBool true);
                ("queues", PList (map PDict entries));
                ("total_queues", PInt 3) ]
    ∧ map (λ e, dict_get e "name") entries
      = [ Some (PStr "default"); Some (PStr "backup"); Some (PStr "network") ]
    ∧ map (λ e, dict_get e "pending_tasks") entries
      = [ Some (PInt 3); Some (PInt 0); Some (PInt 0) ].
Proof.
  destruct (list_queues_listing None (llen_sample []) None
              subscriptions_sample tasks_sample (Some three_queues) None
              eq_refl eq_refl) as (entries & Hrun & Hnames & Hpending).
  { intros q _. unfold llen_sample. reflexivity. }
  exists entries. split; [exact Hrun|]. split; [exact Hnames|exact Hpending].
Defined.

(** The sample listing spelled out: two workers consume [default], one
    consumes [backup], none consumes [network]. *)
Example list_queues_run :
  QueueAdmin.list_queues None (llen_sample []) None
    (Returns subscriptions_sample) (Returns tasks_sample)
    (Some three_queues) (Some [ ("tasks.backup_*", [ ("queue", PStr "backup") ]) ])
  = Returns
      [ ("success", PBool true);
        ("queues",
         PList
           [ PDict [ ("name", PStr "default"); ("pending_tasks", PInt 3);
                     ("active_tasks", PInt 3);
                     ("workers_consuming", PList [PStr "worker@1"; PStr "worker@2"]);
                     ("worker_count", PInt 2); ("routed_tasks", PList []);
                     ("exchange", PStr "default"); ("routing_key", PStr "default") ];
             PDict [ ("name", PStr "backup"); ("pending_tasks", PInt 0);
                     ("active_tasks", PInt 2);
                     ("workers_consuming", PList [PStr "worker@1"]);
                     ("worker_count", PInt 1);
                     ("routed_tasks", PList [PStr "tasks.backup_*"]);
                     ("exchange", PNone); ("routing_key", PNone) ];
             PDict [ ("name", PStr "network"); ("pending_tasks", PInt 0);
                     ("active_tasks", PInt 0); ("workers_consuming", PList []);
                     ("worker_count", PInt 0); ("routed_tasks", PList []);
                     ("exchange", PStr "network"); ("routing_key", PNone) ] ]);
        ("total_queues", PInt 3) ].
Proof. vm_compute. reflexivity. Qed.

Lemma list_queues_all_or_nothing_witness :
  QueueAdmin.list_queues None (llen_sample ["network"]) None
    (Returns subscriptions_sample) (Returns tasks_sample)
    (Some three_queues) None
  = Returns [ ("success", PBool false); ("error", PStr "WRONGTYPE");
              ("queues", PList []); ("total_queues", PInt 0) ].
Proof.
  destruct (list_queues_all_or_nothing None (llen_sample ["network"]) None
              subscriptions_sample tasks_sample (Some three_queues) None)
    as (e & He).
  - right. right. exists "network". split; [cbn; set_solver|reflexivity].
  - rewrite He. vm_compute in He. injection He as He.
    by rewrite He.
Defined.

(** ** Task status *)

Section TaskStatusFacts.
Import CeleryApi.
Variable py_str : pyval → string.

Ltac status_case :=
  first [ done
        | by auto
        | by (exfalso; match goal with H : _ ∉ _ |- _ => apply H; set_solver end)
        | by (intros Hin; exfalso; apply Hin; set_solver)
        | by (intros; congruence)
        | naive_solver ].

(** X14: the status response of a task whose state is read as [s].  The
    response always carries the task id and [s] as its status; [result] is
    filled only for SUCCESS, [error] only for FAILURE (with the text of
    the failure), [progress] only for PENDING and PROGRESS, and never more
    than one of the three; for every other state, STARTED, RETRY and
    REVOKED among them, all three are left empty.  PENDING always gets the
    fixed queued note, whatever the broker knows about the task. *)
Theorem get_task_status_fields (task_id : string) (res : AsyncResult) :
  r_task_id (get_task_status py_str task_id res) = task_id
  ∧ r_status (get_task_status py_str task_id res) = state res
  ∧ (r_result (get_task_status py_str task_id res) ≠ PNone →
     state res = "SUCCESS"
     ∧ r_result (get_task_status py_str task_id res) = result res)
  ∧ (r_error (get_task_status py_str task_id res) ≠ PNone ↔ state res = "FAILURE")
  ∧ (state res = "FAILURE" →
     r_error (get_task_status py_str task_id res) = PStr (py_str (info res)))
  ∧ (r_progress (get_task_status py_str task_id res) ≠ PNone →
     state res = "PENDING" ∨ state res = "PROGRESS")
  ∧ (state res = "PENDING" →
     r_progress (get_task_status py_str task_id res)
     = PDict [ ("status", PStr "Task is queued and waiting to start") ])
  ∧ (state res ∉ [ "PENDING"; "PROGRESS"; "SUCCESS"; "FAILURE" ] →
     r_result (get_task_status py_str task_id res) = PNone
     ∧ r_error (get_task_status py_str task_id res) = PNone
     ∧ r_progress (get_task_status py_str task_id res) = PNone)
  ∧ (r_result (get_task_status py_str task_id res) = PNone
     ∧ r_error (get_task_status py_str task_id res) = PNone
     ∨ r_result (get_task_status py_str task_id res) = PNone
       ∧ r_progress (get_task_status py_str task_id res) = PNone
     ∨ r_error (get_task_status py_str task_id res) = PNone
       ∧ r_progress (get_task_status py_str task_id res) = PNone).
Proof.
  unfold get_task_status.
  destruct (String.eqb_spec (state res) "PENDING") as [Hp|Hp];
    [cbn; rewrite Hp; repeat split; status_case|].
  destruct (String.eqb_spec (state res) "PROGRESS") as [Hg|Hg];
    [cbn; rewrite Hg; repeat split; status_case|].
  destruct (String.eqb_spec (state res) "SUCCESS") as [Hs|Hs];
    [cbn; rewrite Hs; repeat split; status_case|].
  destruct (String.eqb_spec (state res) "FAILURE") as [Hf|Hf];
    [cbn; rewrite Hf; repeat split; status_case|].
  cbn. repeat split; status_case.
Qed.

End TaskStatusFacts.

(** ** Scheduler and broker status, continued *)

Section StatusMoreFacts.
Import Env CeleryStatus.

Ltac run_status :=
  unfold celery_status, beat_status, try_except, inspect_call, from_url,
    r_ping, r_exists, command, record, fresh;
  unfold mbind, io_bind, mret, io_ret; cbn.

Lemma count_tasks_all (active : option (list (string * list pyval))) :
  count_tasks active = all_tasks active.
Proof.
  destruct active as [ws|]; [|reflexivity]. cbn.
  assert (H : ∀ acc,
    fold_left (λ task_count worker, task_count + Z.of_nat (length worker.2)) ws acc
    = acc + fold_right (λ w a, Z.of_nat (length w.2) + a) 0 ws).
  { induction ws as [|w ws IH]; intros acc; cbn; [lia|]. rewrite IH. lia. }
  rewrite H. lia.
Qed.

(** X15: the figures of the overall status.  Once both introspection
    calls have answered, the handler returns with [worker_count] the
    number of workers in the stats answer and [active_tasks] the number
    of tasks summed over all workers, both 0 when the fleet gave no
    answer.  A failure of either introspection call is not absorbed: the
    handler raises it, and Redis is never contacted. *)
Theorem celery_status_counts (w : world) (k : gmap string string) :
  (∀ stats active,
     inspect_stats w = Returns stats →
     inspect_active w = Returns active →
     ∃ rc br,
       (celery_status w (fresh k)).1
       = Returns (status_envelope rc
                    (match stats with
                     | Some s => Z.of_nat (length s)
                     | None => 0
                     end)
                    (all_tasks active) br))
  ∧ (∀ e, inspect_stats w = Raises e ∨
          (is_returns (inspect_stats w) = true ∧ inspect_active w = Raises e) →
     (celery_status w (fresh k)).1 = Raises e
     ∧ ∀ c ok, EvRedis c ok ∉ log (celery_status w (fresh k)).2).
Proof.
  split.
  - intros stats active Hst Hac.
    destruct (celery_status_returns w k stats active Hst Hac)
      as (wc & tc & br & Hrun).
    revert Hrun. run_status. rewrite Hst, Hac. cbn.
    rewrite <- count_tasks_all.
    destruct (redis_url_error w); cbn;
      [|destruct (redis_fault w Ping); cbn;
        destruct (redis_fault w (Exists "cockpit-ng:beat::lock")); cbn];
      intros _; do 2 eexists; reflexivity.
  - intros e [He|[Hs He]]; run_status.
    + rewrite He. cbn. split; [reflexivity|]. intros c ok H. not_logged H.
    + destruct (inspect_stats w); [|discriminate]. cbn. rewrite He. cbn.
      split; [reflexivity|]. intros c ok H. not_logged H.
Qed.

(** X16: a Redis failure while reading the scheduler's lock key is
    treated differently by the two endpoints: the dedicated endpoint
    raises the error, the overall status absorbs it and reports the
    scheduler as not running. *)
Theorem beat_status_raises_where_status_degrades
    (w : world) (k : gmap string string) (e : exn) stats active :
  redis_url_error w = None →
  redis_fault w (Exists beat_lock_key) = Some e →
  inspect_stats w = Returns stats →
  inspect_active w = Returns active →
  (beat_status w (fresh k)).1 = Raises e
  ∧ ∃ rc wc tc,
      (celery_status w (fresh k)).1 = Returns (status_envelope rc wc tc false).
Proof.
  unfold beat_lock_key. intros Hu Hl Hst Hac. split.
  - run_status. rewrite Hu. cbn. rewrite Hl. reflexivity.
  - run_status. rewrite Hst, Hac. cbn. rewrite Hu. cbn.
    destruct (redis_fault w Ping); cbn; rewrite Hl; cbn;
      do 3 eexists; reflexivity.
Qed.

End StatusMoreFacts.

Section StatusWitnesses.
Import Env CeleryStatus.

Lemma celery_status_counts_witness :
  (∃ rc br,
     (celery_status world_redis_down (fresh ∅)).1
     = Returns (status_envelope rc 1 2 br))
  ∧ (celery_status world_no_workers (fresh ∅)).1
    = Raises (BrokerError "inspect timed out").
Proof.
  split.
  - exact (proj1 (celery_status_counts world_redis_down ∅) _ _ eq_refl eq_refl).
  - exact (proj1 (proj2 (celery_status_counts world_no_workers ∅) _
                    (or_introl eq_refl))).
Defined.

Lemma beat_status_raises_where_status_degrades_witness :
  (beat_status world_redis_down (fresh ∅)).1
  = Raises (BrokerError "Connection refused")
  ∧ ∃ rc wc tc,
      (celery_status world_redis_down (fresh ∅)).1
      = Returns (status_envelope rc wc tc false).
Proof.
  exact (beat_status_raises_where_status_degrades world_redis_down ∅ _ _ _
           eq_refl eq_refl eq_refl eq_refl).
Defined.

(** X17: the dedicated scheduler endpoint, when Redis answers, reports the
    scheduler running exactly when the lock key or the schedule key is in
    the store, and its message says the same. *)
Theorem beat_status_reports (w : world) (k : gmap string string) :
  redis_url_error w = None →
  redis_fault w (Exists beat_lock_key) = None →
  redis_fault w (Exists beat_schedule_key) = None →
  ∃ b,
    (beat_status w (fresh k)).1
    = Returns [ ("success", PBool true); ("beat_running", PBool b);
                ("message",
                 PStr (if b then "Beat is running" else "Beat not detected")) ]
    ∧ (b = true ↔ is_Some (k !! beat_lock_key) ∨ is_Some (k !! beat_schedule_key))
    ∧ keys (beat_status w (fresh k)).2 = k.
Proof.
  unfold beat_lock_key, beat_schedule_key. intros Hu Hl Hs.
  unfold beat_status, from_url, r_exists, command, record, fresh.
  unfold mbind, io_bind, mret, io_ret. cbn.
  rewrite Hu. cbn. rewrite Hl. cbn. rewrite Hs. cbn.
  eexists. split; [reflexivity|]. split; [|reflexivity].
  repeat case_decide; cbn; intuition congruence.
Qed.

Lemma beat_status_reports_witness :
  ∃ b,
    (beat_status world_ok (fresh store_sample)).1
    = Returns [ ("success", PBool true); ("beat_running", PBool b);
                ("message",
                 PStr (if b then "Beat is running" else "Beat not detected")) ]
    ∧ (b = true ↔ is_Some (store_sample !! beat_lock_key)
                  ∨ is_Some (store_sample !! beat_schedule_key)).
Proof.
  destruct (beat_status_reports world_ok store_sample eq_refl eq_refl eq_refl)
    as (b & Hrun & Hiff & _).
  exists b. split; [exact Hrun|exact Hiff].
Defined.

End StatusWitnesses.

(** ** Cleanup statistics and settings, continued *)

Section CleanupMoreFacts.
Import Env CeleryCleanup.
Variable isoformat : Z → string.

(** X18: error behaviour of the stats read, for a clock that is a
    datetime.  A stored retention that is not a number, or an integer
    retention whose cutoff is not a datetime, makes the handler raise (a
    type error, an overflow error) before Redis is contacted.  For an
    integer retention whose cutoff is a datetime, a Redis client that
    cannot be built, or a key scan that fails, makes it raise that error.
    In every case the key space is left as it was. *)
Theorem get_cleanup_stats_errors (w : world) (s : st) :
  0 ≤ utcnow w < datetime_span →
  (∀ v, celery_settings w !! "cleanup_age_hours" = Some v →
        (∀ h, v ≠ PInt h) → (∀ b, v ≠ PBool b) →
        ∃ msg, get_cleanup_stats isoformat w s = (Raises (TypeError msg), s))
  ∧ (∀ h, default (PInt 24) (celery_settings w !! "cleanup_age_hours") = PInt h →
          ¬ (0 ≤ utcnow w - h * 3600000000 < datetime_span) →
          ∃ msg, get_cleanup_stats isoformat w s = (Raises (OverflowError msg), s))
  ∧ (∀ h e, default (PInt 24) (celery_settings w !! "cleanup_age_hours") = PInt h →
            0 ≤ utcnow w - h * 3600000000 < datetime_span →
            redis_url_error w = Some e →
            (get_cleanup_stats isoformat w s).1 = Raises e
            ∧ keys (get_cleanup_stats isoformat w s).2 = keys s)
  ∧ (∀ h e, default (PInt 24) (celery_settings w !! "cleanup_age_hours") = PInt h →
            0 ≤ utcnow w - h * 3600000000 < datetime_span →
            redis_url_error w = None →
            redis_fault w (ScanIter "celery-task-meta-") = Some e →
            (get_cleanup_stats isoformat w s).1 = Raises e
            ∧ keys (get_cleanup_stats isoformat w s).2 = keys s).
Proof.
  intros Hnow.
  unfold get_cleanup_stats, lift, from_url, r_scan_iter, command, record.
  unfold mbind, io_bind, mret, io_ret. split; [|split; [|split]].
  - intros v Hv Hi Hb. rewrite Hv. cbn.
    destruct v; cbn; try (eexists; reflexivity).
    + exfalso. by eapply Hb.
    + exfalso. by eapply Hi.
  - intros h Hh Hout. rewrite Hh. cbn [timedelta_hours].
    destruct (cutoff_out_of_range (utcnow w) h Hout) as [msg Hmsg].
    exists msg. destruct (hours_delta h) as [delta|e]; cbn.
    + rewrite Hmsg. reflexivity.
    + injection Hmsg as ->. reflexivity.
  - intros h e Hh Hcut Hu. rewrite Hh. cbn [timedelta_hours].
    destruct (cutoff_in_range _ _ Hnow Hcut) as [-> Hsub]. cbn.
    rewrite Hsub. cbn. rewrite Hu. cbn. auto.
  - intros h e Hh Hcut Hu Hs. rewrite Hh. cbn [timedelta_hours].
    destruct (cutoff_in_range _ _ Hnow Hcut) as [-> Hsub]. cbn.
    rewrite Hsub. cbn. rewrite Hu. cbn. rewrite Hs. cbn. auto.
Qed.

End CleanupMoreFacts.

Lemma get_cleanup_stats_errors_witness :
  (∃ msg,
     CeleryCleanup.get_cleanup_stats pretty (world_with_settings {[ "cleanup_age_hours" := PNone ]})
       (fresh store_sample)
     = (Raises (TypeError msg), fresh store_sample))
  ∧ (∃ msg,
       CeleryCleanup.get_cleanup_stats pretty
         (world_with_settings {[ "cleanup_age_hours" := PInt 20000000 ]})
         (fresh store_sample)
       = (Raises (OverflowError msg), fresh store_sample))
  ∧ (CeleryCleanup.get_cleanup_stats pretty world_redis_down (fresh store_sample)).1
    = Raises (BrokerError "Connection refused").
Proof.
  assert (Hnow : ∀ m, 0 ≤ Env.utcnow (world_with_settings m) < CeleryCleanup.datetime_span)
    by (intros m; unfold world_with_settings, utc_2026, CeleryCleanup.datetime_span;
        cbn; lia).
  split; [|split].
  - apply (proj1 (get_cleanup_stats_errors pretty _ (fresh store_sample) (Hnow _))
             PNone); [reflexivity|discriminate..].
  - apply (proj1 (proj2 (get_cleanup_stats_errors pretty _ (fresh store_sample)
                           (Hnow _))) 20000000); [reflexivity|].
    unfold world_with_settings, utc_2026, CeleryCleanup.datetime_span. cbn. lia.
  - assert (Hdown : 0 ≤ Env.utcnow world_redis_down < CeleryCleanup.datetime_span)
      by (unfold world_redis_down, CeleryCleanup.datetime_span; cbn; lia).
    apply (proj2 (proj2 (proj2 (get_cleanup_stats_errors pretty world_redis_down
                                  (fresh store_sample) Hdown)))
             24 _ eq_refl); [|reflexivity|reflexivity].
    unfold world_redis_down, CeleryCleanup.datetime_span. cbn. lia.
Defined.

Section SettingsMoreFacts.
Import CelerySettings.
Variable set_iter : gset string → list string.

Lemma dump_queue_flag (q : CeleryQueue) :
  stored_flag (dump_queue q) = PBool <$> built_in q.
Proof.
  unfold stored_flag, dump_queue.
  destruct (description q), (built_in q); reflexivity.
Qed.

(** X19: the flag stored with each queue of an accepted update.  Every
    stored queue carries a [built_in] flag.  For the four built-in names
    it is true whatever the request said; for any other queue it is what
    the request said, and false when the request said nothing, so a custom
    queue sent with [built_in: true] is stored as built in. *)
Theorem update_celery_settings_flags (sm : settings_manager)
    (request : CelerySettingsRequest) (qs : list CeleryQueue) :
  queues request = Some (Some qs) →
  (∀ b, b ∈ built_in_queue_names → b ∈ map name qs) →
  writable sm = true →
  stored (update_celery_settings set_iter sm request).2 !! "queues"
  = Some (PList (map (λ q, dump_queue (stamp_built_in q)) qs))
  ∧ ∀ q, q ∈ qs →
      stored_flag (dump_queue (stamp_built_in q))
      = Some (PBool (if decide (name q ∈ built_in_queue_names) then true
                     else default false (built_in q))).
Proof.
  intros Hq Hall Hw. split.
  - unfold update_celery_settings. rewrite Hq.
    destruct (decide (built_in_queue_names ∖ list_to_set (map name qs) = ∅))
      as [He|Hne].
    + rewrite persist_queues, Hw, model_dump_queues. cbn [queues with_queues].
      by rewrite map_map.
    + exfalso. apply Hne. apply set_eq. intros x.
      rewrite elem_of_difference, elem_of_list_to_set.
      split; [intros [H1 H2]; destruct H2; auto|set_solver].
  - intros q _. rewrite dump_queue_flag. unfold stamp_built_in.
    destruct (decide (name q ∈ built_in_queue_names)); cbn; [reflexivity|].
    destruct (built_in q) eqn:E; cbn; rewrite ?E; reflexivity.
Qed.

Lemma model_dump_age (r : CelerySettingsRequest) :
  model_dump r !! "cleanup_age_hours"
  = match cleanup_age_hours r with
    | Some (Some h) => Some (PInt h)
    | Some None => Some PNone
    | None => None
    end.
Proof.
  unfold model_dump. rewrite !set_field_lookup_ne by discriminate.
  unfold set_field at 1. destruct (cleanup_age_hours r) as [[h|]|].
  - by rewrite lookup_insert_eq.
  - by rewrite lookup_insert_eq.
  - rewrite !set_field_lookup_ne by discriminate. apply lookup_empty.
Qed.

(** X21: an accepted update merges the request over the stored settings
    key by key: a key the request sets takes the request's value, every
    other key keeps the stored one.  A field the request sets to [null]
    counts as set, so the stored value is replaced by [None] rather than
    kept. *)
Theorem update_celery_settings_merge (sm : settings_manager)
    (request : CelerySettingsRequest) :
  queues request = None →
  writable sm = true →
  (∀ key,
     stored (update_celery_settings set_iter sm request).2 !! key
     = match model_dump request !! key with
       | Some v => Some v
       | None => stored sm !! key
       end)
  ∧ stored (update_celery_settings set_iter sm request).2 !! "cleanup_age_hours"
    = match cleanup_age_hours request with
      | Some (Some h) => Some (PInt h)
      | Some None => Some PNone
      | None => stored sm !! "cleanup_age_hours"
      end.
Proof.
  intros Hq Hw.
  assert (Hkey : ∀ key,
     stored (update_celery_settings set_iter sm request).2 !! key
     = match model_dump request !! key with
       | Some v => Some v
       | None => stored sm !! key
       end).
  { intros key. unfold update_celery_settings. rewrite Hq.
    unfold persist, sm_update_celery_settings, sm_get_celery_settings.
    rewrite Hw. cbn. rewrite lookup_union.
    by destruct (model_dump request !! key), (stored sm !! key). }
  split; [exact Hkey|].
  rewrite Hkey, model_dump_age. by destruct (cleanup_age_hours request) as [[h|]|].
Qed.

End SettingsMoreFacts.

Section SettingsMoreWitnesses.
Import CelerySettings.

Lemma update_celery_settings_flags_witness :
  map stored_flag
    (match stored (update_celery_settings elements settings_sample
                     claiming_request).2 !! "queues" with
     | Some (PList l) => l
     | _ => []
     end)
  = [ Some (PBool true); Some (PBool true); Some (PBool true);
      Some (PBool true); Some (PBool true); Some (PBool false) ].
Proof.
  destruct (update_celery_settings_flags elements settings_sample
              claiming_request _ eq_refl) as [Hstored _].
  - intros b Hb. unfold built_in_queue_names in Hb. cbn. set_solver.
  - reflexivity.
  - rewrite Hstored. vm_compute. reflexivity.
Defined.

Lemma update_celery_settings_merge_witness :
  stored (update_celery_settings elements settings_sample (age_request None)).2
    !! "cleanup_age_hours" = Some PNone
  ∧ stored (update_celery_settings elements settings_sample (age_request None)).2
      !! "max_workers" = Some (PInt 4).
Proof.
  destruct (update_celery_settings_merge elements settings_sample
              (age_request None) eq_refl eq_refl) as [Hkey Hage].
  split; [exact Hage|].
  rewrite Hkey. vm_compute. reflexivity.
Defined.

End SettingsMoreWitnesses.

Section SettingsCleanupFacts.
Import Env.
Variable set_iter : gset string → list string.
Variable isoformat : Z → string.

(** X22: the retention an accepted update stores is the one the stats
    read uses.  When the world's settings are the ones the update left
    behind and the clock is a datetime, an update that set the retention
    age to [h] hours makes the stats report [h] and the cutoff [now - h]
    hours if that cutoff is a datetime, and makes the stats raise an
    overflow error if it is not: the update accepts any integer.  An
    update that set the retention to [null] makes the stats raise a type
    error.  Neither error path contacts Redis. *)
Theorem update_then_cleanup_stats (sm : CelerySettings.settings_manager)
    (request : CelerySettings.CelerySettingsRequest) (w : world)
    (k : gmap string string) :
  CelerySettings.queues request = None →
  CelerySettings.writable sm = true →
  celery_settings w
  = CelerySettings.stored
      (CelerySettings.update_celery_settings set_iter sm request).2 →
  0 ≤ utcnow w < CeleryCleanup.datetime_span →
  (∀ h, CelerySettings.cleanup_age_hours request = Some (Some h) →
        0 ≤ utcnow w - h * 3600000000 < CeleryCleanup.datetime_span →
        redis_url_error w = None →
        redis_fault w (ScanIter result_prefix) = None →
        ∃ n msg,
          (CeleryCleanup.get_cleanup_stats isoformat w (fresh k)).1
          = Returns
              [ ("success", PBool true);
                ("stats",
                 PDict [ ("cleanup_age_hours", PInt h);
                         ("cutoff_time",
                          PStr (isoformat (utcnow w - h * 3600000000)));
                         ("total_result_keys", PInt n);
                         ("message", PStr msg) ]) ])
  ∧ (∀ h, CelerySettings.cleanup_age_hours request = Some (Some h) →
          ¬ (0 ≤ utcnow w - h * 3600000000 < CeleryCleanup.datetime_span) →
          ∃ msg,
            CeleryCleanup.get_cleanup_stats isoformat w (fresh k)
            = (Raises (OverflowError msg), fresh k))
  ∧ (CelerySettings.cleanup_age_hours request = Some None →
     ∃ msg,
       CeleryCleanup.get_cleanup_stats isoformat w (fresh k)
       = (Raises (TypeError msg), fresh k)).
Proof.
  intros Hq Hw Hset Hnow.
  assert (Hage : celery_settings w !! "cleanup_age_hours"
                 = match CelerySettings.cleanup_age_hours request with
                   | Some (Some h) => Some (PInt h)
                   | Some None => Some PNone
                   | None => CelerySettings.stored sm !! "cleanup_age_hours"
                   end).
  { rewrite Hset. unfold CelerySettings.update_celery_settings. rewrite Hq.
    unfold CelerySettings.persist, CelerySettings.sm_update_celery_settings,
      CelerySettings.sm_get_celery_settings.
    rewrite Hw. cbn. rewrite lookup_union, model_dump_age.
    by destruct (CelerySettings.cleanup_age_hours request) as [[h|]|],
                (CelerySettings.stored sm !! "cleanup_age_hours"). }
  unfold CeleryCleanup.get_cleanup_stats, CeleryCleanup.lift, from_url,
    r_scan_iter, command, record, fresh.
  unfold mbind, io_bind, mret, io_ret. rewrite Hage. split; [|split].
  - intros h Hh Hcut Hu Hs. rewrite Hh.
    change (default (PInt 24) (Some (PInt h))) with (PInt h).
    cbn [CeleryCleanup.timedelta_hours].
    destruct (cutoff_in_range _ _ Hnow Hcut) as [-> Hsub]. cbn.
    rewrite Hsub. cbn. rewrite Hu. cbn.
    unfold result_prefix in Hs. rewrite Hs. cbn. do 2 eexists. reflexivity.
  - intros h Hh Hout. rewrite Hh.
    change (default (PInt 24) (Some (PInt h))) with (PInt h).
    cbn [CeleryCleanup.timedelta_hours].
    destruct (cutoff_out_of_range (utcnow w) h Hout) as [msg Hmsg].
    exists msg. destruct (CeleryCleanup.hours_delta h) as [delta|e]; cbn.
    + rewrite Hmsg. reflexivity.
    + injection Hmsg as ->. reflexivity.
  - intros Hn. rewrite Hn. cbn. eexists. reflexivity.
Qed.

End SettingsCleanupFacts.

Lemma update_then_cleanup_stats_witness :
  (∃ n msg,
     (CeleryCleanup.get_cleanup_stats pretty
        (world_with_settings
           (CelerySettings.stored
              (CelerySettings.update_celery_settings elements settings_sample
                 (age_request (Some 48))).2))
        (fresh store_sample)).1
     = Returns
         [ ("success", PBool true);
           ("stats",
            PDict [ ("cleanup_age_hours", PInt 48);
                    ("cutoff_time", PStr (pretty (utc_2026 - 48 * 3600000000)));
                    ("total_result_keys", PInt n);
                    ("message", PStr msg) ]) ])
  ∧ (∃ msg,
       CeleryCleanup.get_cleanup_stats pretty
         (world_with_settings
            (CelerySettings.stored
               (CelerySettings.update_celery_settings elements settings_sample
                  (age_request (Some 20000000))).2))
         (fresh store_sample)
       = (Raises (OverflowError msg), fresh store_sample)).
Proof.
  assert (Hnow : ∀ m, 0 ≤ Env.utcnow (world_with_settings m) < CeleryCleanup.datetime_span)
    by (intros m; unfold world_with_settings, utc_2026, CeleryCleanup.datetime_span;
        cbn; lia).
  split.
  - apply (proj1 (update_then_cleanup_stats elements pretty settings_sample
                    (age_request (Some 48))
                    (world_with_settings
                       (CelerySettings.stored
                          (CelerySettings.update_celery_settings elements
                             settings_sample (age_request (Some 48))).2))
                    store_sample eq_refl eq_refl eq_refl (Hnow _))
             48 eq_refl); [|reflexivity|reflexivity].
    unfold world_with_settings, utc_2026, CeleryCleanup.datetime_span. cbn. lia.
  - apply (proj1 (proj2 (update_then_cleanup_stats elements pretty settings_sample
                    (age_request (Some 20000000))
                    (world_with_settings
                       (CelerySettings.stored
                          (CelerySettings.update_celery_settings elements
                             settings_sample (age_request (Some 20000000))).2))
                    store_sample eq_refl eq_refl eq_refl (Hnow _)))
             20000000 eq_refl).
    unfold world_with_settings, utc_2026, CeleryCleanup.datetime_span. cbn. lia.
Defined.

(** ** Cache and cache-settings endpoints *)

Section CacheRouterFacts.
Import SettingsRouters.
Variable cache : Type.
Variable clear_all : cache → outcome Z * cache.
Variable clear_namespace : pyval → cache → outcome Z * cache.
Variable py_str : pyval → string.

Local Abbreviation clear_cache :=
  (clear_cache cache clear_all clear_namespace py_str).

(** X23: which part of the cache a clear request empties.  Without a
    payload, with an empty one, or with a namespace that is missing, null
    or the empty string, the whole cache is cleared and the namespace
    operation is not used; with a non-empty namespace string only the
    namespace operation is used.  In every case the handler returns: an
    exception of the cache service becomes a failure envelope. *)
Theorem clear_cache_routing (payload : option pydict) (c : cache) :
  (payload = None ∨ payload = Some []
   ∨ (∃ p, payload = Some p
           ∧ (dict_get p "namespace" = None
              ∨ dict_get p "namespace" = Some PNone
              ∨ dict_get p "namespace" = Some (PStr ""))) →
   (clear_cache payload c).2 = (clear_all c).2
   ∧ ∀ n, (clear_all c).1 = Returns n →
          ∃ msg, (clear_cache payload c).1
                 = Returns [ ("success", PBool true); ("message", PStr msg);
                             ("cleared_count", PInt n) ])
  ∧ (∀ p ns, payload = Some p → dict_get p "namespace" = Some (PStr ns) →
             ns ≠ "" →
     (clear_cache payload c).2 = (clear_namespace (PStr ns) c).2
     ∧ ∀ n, (clear_namespace (PStr ns) c).1 = Returns n →
            ∃ msg, (clear_cache payload c).1
                   = Returns [ ("success", PBool true); ("message", PStr msg);
                               ("cleared_count", PInt n) ])
  ∧ ∃ r, (clear_cache payload c).1 = Returns r.
Proof.
  split; [|split].
  - intros H.
    assert (Hall : SettingsRouters.clear_cache cache clear_all clear_namespace
                     py_str payload c
                   = match clear_all c with
                     | (Returns n, c') =>
                         (Returns
                            [ ("success", PBool true);
                              ("message",
                               PStr ("Cleared all cache entries (" +:+ pretty n
                                     +:+ " items)"));
                              ("cleared_count", PInt n) ], c')
                     | (Raises e, c') => (Returns (cache_failure e), c')
                     end).
    { unfold SettingsRouters.clear_cache.
      destruct H as [->|[->|(p & -> & Hp)]]; [reflexivity..|].
      destruct p as [|kv p]; [reflexivity|]. cbn [truthy].
      destruct Hp as [->|[->| ->]]; reflexivity. }
    rewrite Hall. destruct (clear_all c) as [[n|e] c']; cbn.
    + split; [reflexivity|]. intros n' [= <-]. eauto.
    + split; [reflexivity|]. intros n' [=].
  - intros p ns -> Hns Hne.
    unfold SettingsRouters.clear_cache.
    assert (Hb : String.eqb ns "" = false) by (by apply String.eqb_neq).
    destruct p as [|kv p]; [discriminate|]. cbn [truthy]. rewrite Hns.
    change (default PNone (Some (PStr ns))) with (PStr ns).
    cbn [truthy]. rewrite Hb. cbn [negb].
    destruct (clear_namespace (PStr ns) c) as [[n|e] c']; cbn.
    + split; [reflexivity|]. intros n' [= <-]. eauto.
    + split; [reflexivity|]. intros n' [=].
  - unfold SettingsRouters.clear_cache.
    destruct (negb _);
      [destruct (clear_all c) as [[n|e] c']
      |destruct (clear_namespace _ c) as [[n|e] c']]; eauto.
Qed.

End CacheRouterFacts.

Section CacheSettingsFacts.
Import SettingsRouters.
Variable manager : Type.
Variable update_cache_settings : pyval → manager → outcome bool * manager.
Variable get_cache_settings : manager → outcome pyval.

(** X24: the two handlers that write the cache settings fail in opposite
    ways.  The POST handler always returns, with a failure envelope when
    anything goes wrong; the PUT handler never returns a failure
    envelope: it returns only the success envelope and otherwise raises
    status 500.  When the settings store reports the write as failed, the
    PUT handler's own 500 is caught by its own handler and wrapped again,
    so the detail repeats the message around the status code. *)
Theorem cache_settings_put_vs_post (cache_request : pyval) (m : manager) :
  (∃ r, (post_cache_settings manager update_cache_settings get_cache_settings
           cache_request m).1 = Returns r)
  ∧ (∀ r, (put_cache_settings manager update_cache_settings get_cache_settings
             cache_request m).1 = Returns r →
          dict_get r "success" = Some (PBool true))
  ∧ (∀ e, (put_cache_settings manager update_cache_settings get_cache_settings
             cache_request m).1 = Raises e →
          ∃ detail, e = HTTPException 500 detail)
  ∧ (∀ m', update_cache_settings cache_request m = (Returns false, m') →
       (put_cache_settings manager update_cache_settings get_cache_settings
          cache_request m).1
       = Raises (HTTPException 500
           "Failed to update Cache settings: 500: Failed to update Cache settings")
       ∧ (post_cache_settings manager update_cache_settings get_cache_settings
            cache_request m).1
         = Returns [ ("success", PBool false);
                     ("message", PStr "Failed to update Cache settings") ]).
Proof.
  unfold post_cache_settings, put_cache_settings, wrap_500.
  destruct (update_cache_settings cache_request m) as [[[|]|e] m1]; cbn.
  - destruct (get_cache_settings m1) as [u|e]; cbn.
    + split; [eauto|]. split; [by intros r [= <-]|].
      split; [intros e [=]|intros m' [=]].
    + split; [eauto|]. split; [intros r [=]|].
      split; [intros e' [= <-]; eauto|intros m' [=]].
  - split; [eauto|]. split; [intros r [=]|].
    split; [intros e' [= <-]; eauto|]. intros m' _. split; reflexivity.
  - split; [eauto|]. split; [intros r [=]|].
    split; [intros e' [= <-]; eauto|intros m' [=]].
Qed.

End CacheSettingsFacts.
